(** * The winesteam runner (lutris/runners/winesteam.py)

    A shallow embedding of the "Steam for Windows" runner of Lutris and the
    properties its specification states about it: resolution of the Steam
    executable and of a game's data directory, the launch command, the
    installation check, the installer, and the timed shutdown of a running
    Steam before a launch.

    The runner is Python 2 code.  Strings are [string], an optional value
    ([None] or a value) is an [option], a [dict] read by key is a [gmap],
    and the operating system is an explicit [World] that every effectful
    function threads through a small state-and-exception monad. *)

From stdpp Require Import base option list strings gmap.
From Stdlib Require Import ZArith Lia Ascii.

Local Open Scope Z_scope.

(** ** Python values *)

Module Py.

(** Truth value of an optional string: [None] and [''] are false. *)
Definition truthy (v : option string) : bool :=
  match v with
  | None => false
  | Some "" => false
  | Some _ => true
  end.

(** Truth value of an optional integer: [None] and [0] are false. *)
Definition truthy_int (v : option Z) : bool :=
  match v with
  | None => false
  | Some n => negb (n =? 0)
  end.

(** [x or ''] on an optional string. *)
Definition or_empty (v : option string) : string :=
  if truthy v then default "" v else "".

(** The one-character string holding a double quote. *)
Definition dquote : string := String "034"%char EmptyString.

(** The format ['"%s"' % s]: [s] between double quotes. *)
Definition quoted (s : string) : string := dquote +:+ s +:+ dquote.

(** The exceptions the runner can meet. *)
Inductive exn : Type :=
| AttributeError (msg : string)
| IOError (msg : string).

Inductive result (A : Type) : Type :=
| Ok (a : A)
| Raised (e : exn).
Global Arguments Ok {A} a.
Global Arguments Raised {A} e.

Definition is_ok {A} (r : result A) : bool :=
  match r with Ok _ => true | Raised _ => false end.

End Py.

(** ** os.path (posixpath of Python 2.7) *)

Module OsPath.

Definition is_slash (c : ascii) : bool := bool_decide (c = "/"%char).

Definition startswith_slash (s : string) : bool :=
  match s with
  | String c _ => is_slash c
  | EmptyString => false
  end.

Fixpoint endswith_slash (s : string) : bool :=
  match s with
  | EmptyString => false
  | String c EmptyString => is_slash c
  | String _ s' => endswith_slash s'
  end.

Fixpoint all_slashes (s : string) : bool :=
  match s with
  | EmptyString => true
  | String c s' => is_slash c && all_slashes s'
  end.

(** [s.rstrip('/')] *)
Fixpoint rstrip_slash (s : string) : string :=
  match s with
  | EmptyString => EmptyString
  | String c s' =>
      match rstrip_slash s' with
      | EmptyString => if is_slash c then EmptyString else String c EmptyString
      | r => String c r
      end
  end.

(** [p[:p.rfind('/') + 1]]: the prefix of [p] up to and including its
    last slash, empty when [p] has none. *)
Fixpoint upto_last_slash (p : string) : string :=
  match p with
  | EmptyString => EmptyString
  | String c p' =>
      match upto_last_slash p' with
      | EmptyString => if is_slash c then String c EmptyString else EmptyString
      | r => String c r
      end
  end.

(** [os.path.dirname(p)] *)
Definition dirname (p : string) : string :=
  let head := upto_last_slash p in
  if negb (bool_decide (head = "")) && negb (all_slashes head)
  then rstrip_slash head
  else head.

(** [os.path.join(a, b)] on two strings. *)
Definition join (a b : string) : string :=
  if startswith_slash b then b
  else if bool_decide (a = "") || endswith_slash a then a +:+ b
  else a +:+ "/" +:+ b.

(** [os.path.join(a, b)] on values that may be [None]: the method calls
    [b.startswith] and [path.endswith] raise [AttributeError] on [None],
    and [path == ''] is simply false for it. *)
Definition join_opt (a b : option string) : Py.result string :=
  match b with
  | None =>
      Py.Raised (Py.AttributeError "'NoneType' object has no attribute 'startswith'")
  | Some b' =>
      if startswith_slash b' then Py.Ok b'
      else match a with
           | None =>
               Py.Raised (Py.AttributeError "'NoneType' object has no attribute 'endswith'")
           | Some a' => Py.Ok (join a' b')
           end
  end.

(** Splits [s] at its first slash: the part before, and the rest from the
    slash on. *)
Fixpoint break_at_slash (s : string) : string * string :=
  match s with
  | EmptyString => (EmptyString, EmptyString)
  | String c s' =>
      if is_slash c then (EmptyString, s)
      else let '(name, tail) := break_at_slash s' in (String c name, tail)
  end.

(** [os.path.expanduser(path)], given the home directory of the current
    user and the password database for the [~user] form. *)
Definition expanduser (home : string) (pw_dir : string → option string)
    (path : string) : string :=
  match path with
  | String "~"%char rest =>
      let '(name, tail) := break_at_slash rest in
      let userhome :=
        if bool_decide (name = "") then Some home else pw_dir name in
      match userhome with
      | None => path
      | Some h =>
          let r := rstrip_slash h +:+ tail in
          if bool_decide (r = "") then "/" else r
      end
  | _ => path
  end.

End OsPath.

(** ** The world outside the runner *)

Module Sys.

(** What one look at the process table shows.  The table is the only source
    of truth and changes between two looks, so every query of the runner
    reads a fresh snapshot. *)
Record Snapshot : Type := mkSnapshot {
  pid_of : string → option Z;        (* system.get_pid(pattern) *)
  cwd_of : Z → option string;        (* system.get_cwd(pid) *)
  cmdline_of : Z → option string;    (* system.get_command_line(pid) *)
  steam_running : bool               (* lutris.runners.steam.is_running() *)
}.

(** A section-and-key store: Steam's own configuration file, and the
    document a runner configuration holds. *)
Abbreviation Sections := (gmap string (gmap string string)).

Inductive LogLevel : Type := Debug | Info | Warning | Error.

(** What the runner does to the world, in the order it does it. *)
Inductive Event : Type :=
| EGetPid (pattern : string)
| EGetCwd (pid : option Z)
| EGetCommandLine (pid : option Z)
| EExecute (argv : list string)
| EKillPid (pid : option Z)
| ESteamIsRunning
| ESteamShutdown
| ESteamKill
| ESleep (seconds : Z)
| ELog (level : LogLevel) (message : string) (args : list (option string))
| EReadManifest (steam_path : string) (appid : option string)
| EReadConfig (steam_path : string)
| ELookupConfig (appid : option string)
| EMsiExec (installer : string)
| EGdkThreadsEnter
| EGdkThreadsLeave
| EDirectoryDialog (message : string)
| EErrorDialog (message : string)
| EConfigSave (runner : string) (document : Sections)
| EPrepareLaunch.

Record World : Type := mkWorld {
  (* the process table as the k-th query sees it, and the queries so far *)
  ptable : nat → Snapshot;
  tick : nat;
  (* the paths that exist on disk, and what running an installer adds *)
  files : gset string;
  msi_effect : string → gset string → gset string;
  (* the environment of the process: $HOME and the password database *)
  env_home : string;
  pw_dir : string → option string;
  (* what the base class finds: check_depends() and get_executable() *)
  depends_ok : bool;
  wine_executable : string;
  (* the install manifests and Steam's configuration file, by Steam directory *)
  manifests : gmap string (gmap string string);
  steam_configs : gmap string Sections;
  (* the folder the user picks in the directory dialog *)
  dialog_folder : option string;
  (* the saved runner configurations, by runner *)
  store : gmap string Sections;
  (* everything done so far, oldest first *)
  trace : list Event
}.

Definition with_tick (n : nat) (w : World) : World :=
  mkWorld (ptable w) n (files w) (msi_effect w) (env_home w) (pw_dir w)
          (depends_ok w) (wine_executable w) (manifests w) (steam_configs w)
          (dialog_folder w) (store w) (trace w).

Definition with_files (fs : gset string) (w : World) : World :=
  mkWorld (ptable w) (tick w) fs (msi_effect w) (env_home w) (pw_dir w)
          (depends_ok w) (wine_executable w) (manifests w) (steam_configs w)
          (dialog_folder w) (store w) (trace w).

Definition with_store (st : gmap string Sections) (w : World) : World :=
  mkWorld (ptable w) (tick w) (files w) (msi_effect w) (env_home w) (pw_dir w)
          (depends_ok w) (wine_executable w) (manifests w) (steam_configs w)
          (dialog_folder w) st (trace w).

Definition with_trace (tr : list Event) (w : World) : World :=
  mkWorld (ptable w) (tick w) (files w) (msi_effect w) (env_home w) (pw_dir w)
          (depends_ok w) (wine_executable w) (manifests w) (steam_configs w)
          (dialog_folder w) (store w) tr.

(** *** The monad of the runner: state and exceptions *)

Definition M (A : Type) : Type := World → Py.result A * World.

Definition ret {A} (a : A) : M A := λ w, (Py.Ok a, w).

Definition bind {A B} (m : M A) (k : A → M B) : M B :=
  λ w, match m w with
       | (Py.Ok a, w') => k a w'
       | (Py.Raised e, w') => (Py.Raised e, w')
       end.

Definition raise {A} (e : Py.exn) : M A := λ w, (Py.Raised e, w).

Definition lift {A} (r : Py.result A) : M A := λ w, (r, w).

Definition gets {A} (f : World → A) : M A := λ w, (Py.Ok (f w), w).

Definition emit (e : Event) : M unit :=
  λ w, (Py.Ok tt, with_trace (trace w ++ [e]) w).

Declare Scope py_scope.
Delimit Scope py_scope with py.
Notation "x <- m ;; k" := (bind m (λ x, k))
  (at level 100, m at next level, right associativity) : py_scope.
Notation "m ;;; k" := (bind m (λ _, k))
  (at level 100, right associativity) : py_scope.
Local Open Scope py_scope.

(** The value and the final world of a run. *)
Definition value {A} (r : Py.result A * World) : Py.result A := r.1.
Definition final {A} (r : Py.result A * World) : World := r.2.

(** The events a run added to the trace. *)
Definition emitted (w : World) {A} (r : Py.result A * World) : list Event :=
  drop (length (trace w)) (trace (final r)).

(** *** The calls the runner makes *)

(** One more look at the process table. *)
Definition look : M Snapshot :=
  λ w, (Py.Ok (ptable w (tick w)), with_tick (S (tick w)) w).

(** [system.get_pid(pattern)] *)
Definition system_get_pid (pattern : string) : M (option Z) :=
  emit (EGetPid pattern) ;;;
  s <- look ;;
  ret (pid_of s pattern).

(** [system.get_cwd(pid)]: nothing when the process is gone. *)
Definition system_get_cwd (pid : option Z) : M (option string) :=
  emit (EGetCwd pid) ;;;
  s <- look ;;
  ret (pid ≫= cwd_of s).

(** [system.get_command_line(pid)]: nothing when the process is gone. *)
Definition system_get_command_line (pid : option Z) : M (option string) :=
  emit (EGetCommandLine pid) ;;;
  s <- look ;;
  ret (pid ≫= cmdline_of s).

(** [system.execute(argv)] *)
Definition system_execute (argv : list string) : M unit := emit (EExecute argv).

(** [system.kill_pid(pid)] *)
Definition system_kill_pid (pid : option Z) : M unit := emit (EKillPid pid).

(** [time.sleep(seconds)] *)
Definition time_sleep (seconds : Z) : M unit := emit (ESleep seconds).

(** [logger.debug], [logger.info], [logger.warning], [logger.error] *)
Definition logger (level : LogLevel) (message : string)
    (args : list (option string)) : M unit :=
  emit (ELog level message args).

(** [os.path.exists(path)] *)
Definition os_path_exists (w : World) (path : string) : bool :=
  bool_decide (path ∈ files w).

(** Modelled from the spec: the module lutris.runners.steam, whose
    [is_running], [shutdown] and [kill] the pre-launch step calls, is not
    part of the sources.  The probe answers from the process table; the
    graceful request and the kill are fire-and-forget calls. *)
Definition steam_is_running : M bool :=
  emit ESteamIsRunning ;;;
  s <- look ;;
  ret (steam_running s).

Definition steam_shutdown : M unit := emit ESteamShutdown.

Definition steam_kill : M unit := emit ESteamKill.

(** Modelled from the spec: [lutris.util.steam.get_path_from_appmanifest]
    is not part of the sources.  It consults the install manifest of the
    given Steam directory for the given appid. *)
Definition manifest_lookup (w : World) (steam_path : string)
    (appid : option string) : option string :=
  a ← appid; m ← manifests w !! steam_path; m !! a.

Definition get_path_from_appmanifest (steam_path : string)
    (appid : option string) : M (option string) :=
  emit (EReadManifest steam_path appid) ;;;
  gets (λ w, manifest_lookup w steam_path appid).

(** Modelled from the spec: [lutris.util.steam.read_config] is not part of
    the sources.  It reads the configuration file rooted at the given
    Steam directory, a store of sections of keys and values. *)
Definition read_config (steam_path : string) : M (option Sections) :=
  emit (EReadConfig steam_path) ;;;
  gets (λ w, steam_configs w !! steam_path).

(** Modelled from the spec: [lutris.util.steam.get_path_from_config] is not
    part of the sources.  It looks the appid's install location up in the
    app registry section of the configuration. *)
Definition config_lookup (config : option Sections) (appid : option string)
    : option string :=
  c ← config; a ← appid; apps ← c !! "apps"; apps !! a.

Definition get_path_from_config (config : option Sections)
    (appid : option string) : M (option string) :=
  emit (ELookupConfig appid) ;;;
  ret (config_lookup config appid).

End Sys.

(** ** The module-level helpers of winesteam.py *)

Module Winesteam.
Import Sys.
Local Open Scope py_scope.

(** [is_running()] *)
Definition is_running : M bool :=
  pid <- system_get_pid "Steam.exe$" ;;
  ret (Py.truthy_int pid).

(** [shutdown()]: asks the running Steam to quit.  Returns [False] when no
    Steam is found and [None] after the request. *)
Definition shutdown : M (option bool) :=
  pid <- system_get_pid "Steam.exe$" ;;
  if negb (Py.truthy_int pid) then ret (Some false)
  else
    cwd <- system_get_cwd pid ;;
    cmdline <- system_get_command_line pid ;;
    steam_exe <- lift (OsPath.join_opt cwd cmdline) ;;
    logger Debug "Shutting winesteam: %s" [Some steam_exe] ;;;
    system_execute ["wine"; steam_exe; "-shutdown"] ;;;
    ret None.

(** [kill()] *)
Definition kill : M unit :=
  pid <- system_get_pid "Steam.exe$" ;;
  system_kill_pid pid.

(** ** The class winesteam *)

(** The runner object: the name of the runner it depends on, its runner
    options and the options of the game, each option a string by its
    declared type ([None] when the key is absent). *)
Record Runner : Type := mkRunner {
  depends : option string;
  runner_config : gmap string string;
  game_config : gmap string string
}.

(** [self.__class__.__name__] *)
Definition class_name : string := "winesteam".

(** [self.check_depends()], of the base class. *)
Definition check_depends (self : Runner) (w : World) : bool := depends_ok w.

(** [self.get_executable()], of the wine runner. *)
Definition get_executable (self : Runner) (w : World) : string := wine_executable w.

(** [get_default_steam_dir(prefix=None)] *)
Definition get_default_steam_dir (self : Runner) (w : World)
    (prefix : option string) : string :=
  let prefix' :=
    if negb (Py.truthy prefix)
    then OsPath.expanduser (env_home w) (pw_dir w) "~/.wine"
    else default "" prefix in
  OsPath.join prefix' "drive_c/Program Files/Steam".

(** The property [steam_path]: the configured path when it exists on disk,
    the default location otherwise. *)
Definition steam_path (self : Runner) (w : World) : string :=
  let path := runner_config self !! "steam_path" in
  if Py.truthy path && os_path_exists w (default "" path)
  then default "" path
  else OsPath.join (get_default_steam_dir self w None) "Steam.exe".

(** The property [launch_args] *)
Definition launch_args (self : Runner) (w : World) : list string :=
  [Py.quoted (get_executable self w); Py.quoted (steam_path self w); "-no-dwrite"].

(** [is_installed()] *)
Definition is_installed (self : Runner) (w : World) : bool :=
  if negb (check_depends self w) || negb (Py.truthy (Some (steam_path self w)))
  then false
  else os_path_exists w (steam_path self w).

(** [get_steam_config()] *)
Definition get_steam_config (self : Runner) : M (option Sections) :=
  p <- gets (steam_path self) ;;
  if negb (Py.truthy (Some p)) then ret None
  else
    steam_path' <- gets (λ w, OsPath.dirname (steam_path self w)) ;;
    read_config steam_path'.

(** The candidates of [get_steamapps_path], in the order they are tried. *)
Definition candidates : list string := ["SteamApps/common"; "steamapps/common"].

(** The loop of [get_steamapps_path] over the candidates left. *)
Fixpoint steamapps_loop (self : Runner) (w : World) (cs : list string)
    : Py.result string :=
  match cs with
  | [] => Py.Raised (Py.IOError "Unable to locate SteamApps path")
  | candidate :: cs' =>
      let steam_path' := OsPath.dirname (steam_path self w) in
      let path := OsPath.join steam_path' candidate in
      if os_path_exists w path then Py.Ok path
      else steamapps_loop self w cs'
  end.

(** [get_steamapps_path()] *)
Definition get_steamapps_path (self : Runner) (w : World) : Py.result string :=
  steamapps_loop self w candidates.

(** [get_game_data_path(appid)] *)
Definition get_game_data_path (self : Runner) (appid : option string)
    : M (option string) :=
  steam_path' <- gets (λ w, OsPath.dirname (steam_path self w)) ;;
  data_path <- get_path_from_appmanifest steam_path' appid ;;
  data_path <- (if negb (Py.truthy data_path)
                then steam_config <- get_steam_config self ;;
                     get_path_from_config steam_config appid
                else ret data_path) ;;
  (if negb (Py.truthy data_path)
   then logger Warning "Data path for SteamApp %s not found." [appid]
   else ret tt) ;;;
  ret data_path.

(** [prelaunch()] *)
Definition prelaunch (self : Runner) : M bool :=
  r0 <- steam_is_running ;;
  if r0 then
    steam_shutdown ;;;
    logger Info "Waiting for Steam to shutdown..." [] ;;;
    time_sleep 2 ;;;
    r1 <- steam_is_running ;;
    if r1 then
      logger Info "Steam does not shutdown, killing it..." [] ;;;
      steam_kill ;;;
      time_sleep 2 ;;;
      r2 <- steam_is_running ;;
      if r2 then
        logger Error "Failed to shutdown Steam for Windows :(" [] ;;;
        ret false
      else ret true
    else ret true
  else ret true.

(** What [play()] returns: one of two dictionaries. *)
Inductive PlayResult : Type :=
| PlayError (error : string) (runner : option string)
| PlayCommand (command : list string).

(** [prepare_launch()], of the wine runner. *)
Definition prepare_launch (self : Runner) : M unit := emit EPrepareLaunch.

(** [play()] *)
Definition play (self : Runner) : M PlayResult :=
  dep <- gets (check_depends self) ;;
  if negb dep then ret (PlayError "RUNNER_NOT_INSTALLED" (depends self))
  else
    inst <- gets (is_installed self) ;;
    if negb inst then ret (PlayError "RUNNER_NOT_INSTALLED" (Some class_name))
    else
      let appid := Py.or_empty (game_config self !! "appid") in
      let args := Py.or_empty (game_config self !! "args") in
      logger Debug "Checking Steam installation" [] ;;;
      prepare_launch self ;;;
      let command := ["WINEDEBUG=fixme-all"] in
      let prefix := Py.or_empty (game_config self !! "prefix") in
      let command :=
        if Py.truthy (Some prefix)
        then command ++ ["WINEPREFIX=" +:+ Py.quoted prefix +:+ " "]
        else command in
      largs <- gets (launch_args self) ;;
      let command := command ++ largs in
      let command :=
        if Py.truthy (Some appid) then command ++ ["-applaunch"; appid]
        else command in
      let command :=
        if Py.truthy (Some args) then command ++ [args] else command in
      ret (PlayCommand command).

(** [self.msi_exec(installer_path, quiet=True)], of the wine runner: runs
    the installer to its end. *)
Definition msi_exec (self : Runner) (installer_path : string) : M unit :=
  emit (EMsiExec installer_path) ;;;
  λ w, (Py.Ok tt, with_files (msi_effect w installer_path (files w)) w).

(** [DirectoryDialog(message).folder] *)
Definition directory_dialog (message : string) : M (option string) :=
  emit (EDirectoryDialog message) ;;;
  gets dialog_folder.

(** [ErrorDialog(message)] *)
Definition error_dialog (message : string) : M unit := emit (EErrorDialog message).

(** Modelled from the spec: [lutris.config.LutrisConfig] is not part of the
    sources.  [LutrisConfig(runner=r)] with its [runner_config] set to a
    document and then saved persists that document as the configuration of
    the runner [r]. *)
Definition config_save (runner : string) (document : Sections) : M unit :=
  emit (EConfigSave runner document) ;;;
  λ w, (Py.Ok tt, with_store (<[runner := document]> (store w)) w).

(** The document [install] saves: [{'winesteam': {'steam_path': path}}]. *)
Definition install_document (path : string) : Sections :=
  {[ "winesteam" := {[ "steam_path" := path ]} ]}.

(** [install(installer_path=None)] *)
Definition install (self : Runner) (installer_path : option string) : M unit :=
  steam_dir <-
    (if Py.truthy installer_path
     then msi_exec self (default "" installer_path) ;;;
          d <- gets (λ w, get_default_steam_dir self w None) ;;
          ret (Some d)
     else emit EGdkThreadsEnter ;;;
          folder <- directory_dialog "Where is Steam.exe installed?" ;;
          emit EGdkThreadsLeave ;;;
          ret folder) ;;
  steam_path' <- lift (OsPath.join_opt steam_dir (Some "Steam.exe")) ;;
  ex <- gets (λ w, os_path_exists w steam_path') ;;
  if ex then config_save "winesteam" (install_document steam_path')
  else error_dialog "Can't find Steam.exe in the selected folder".

End Winesteam.

(** ** The rest of winesteam.py *)

Module WinesteamRest.
Import Sys Winesteam.
Local Open Scope py_scope.

(** The property [game_path]: resolves the data path of the game's appid,
    and resolves it again to return it. *)
Definition game_path (self : Runner) : M (option string) :=
  let appid := game_config self !! "appid" in
  found <- get_game_data_path self appid ;;
  if Py.truthy found then get_game_data_path self appid
  else ret None.

(** [sep.join(items)] *)
Fixpoint str_join (sep : string) (items : list string) : string :=
  match items with
  | [] => ""
  | [x] => x
  | x :: rest => x +:+ sep +:+ str_join sep rest
  end.

(** What a function that may raise KeyError gives. *)
Inductive Outcome (A : Type) : Type :=
| Returned (a : A)
| KeyError (key : string).
Global Arguments Returned {A} a.
Global Arguments KeyError {A} key.

(** [get_appid_list()]: the keys of the app registry of Steam's
    configuration, in no particular order.  An empty configuration counts as
    none; subscripting a configuration that has no ['apps'] raises. *)
Definition get_appid_list (self : Runner) : M (Outcome (option (gset string))) :=
  config <- get_steam_config self ;;
  match config with
  | Some c =>
      if bool_decide (c = ∅) then ret (Returned None)
      else match c !! "apps" with
           | Some apps => ret (Returned (Some (dom apps)))
           | None => ret (KeyError "apps")
           end
  | None => ret (Returned None)
  end.

(** What [browse_dir] returns: [False], or what [game_path] gave. *)
Inductive Browse : Type :=
| BrowseFalse
| BrowsePath (path : option string).

Section Collaborators.

(** [self.install_dialog()] and [super().stop()] of the base classes, and
    [subprocess.Popen(string, shell=True)]. *)
Variable install_dialog : M bool.
Variable base_stop : M unit.
Variable popen_shell : string → M unit.

(** The property [browse_dir] *)
Definition browse_dir (self : Runner) : M Browse :=
  inst <- gets (is_installed self) ;;
  if negb inst then
    installed <- install_dialog ;;
    if negb installed then ret BrowseFalse
    else p <- game_path self ;; ret (BrowsePath p)
  else p <- game_path self ;; ret (BrowsePath p).

(** [install_game(appid)] *)
Definition install_game (self : Runner) (appid : string) : M unit :=
  largs <- gets (launch_args self) ;;
  let command := largs ++ ["steam://install/" +:+ appid] in
  let string := str_join " " command in
  logger Debug "Thread running: %s" [Some string] ;;;
  popen_shell string.

(** [validate_game(appid)] *)
Definition validate_game (self : Runner) (appid : string) : M unit :=
  largs <- gets (launch_args self) ;;
  let command := largs ++ ["steam://validate/" +:+ appid] in
  let string := str_join " " command in
  popen_shell string.

(** [stop()] *)
Definition stop (self : Runner) : M unit :=
  shutdown ;;;
  time_sleep 2 ;;;
  base_stop.

End Collaborators.

End WinesteamRest.

(** ** Observations on a trace *)

Module Trace.
Import Sys.

(** The durations of the sleeps, in order. *)
Definition sleeps (tr : list Event) : list Z :=
  omap (λ e, match e with ESleep s => Some s | _ => None end) tr.

(** The number of unconditional kills: of Steam by the helper of
    lutris.runners.steam, or of a pid by [system.kill_pid]. *)
Definition kills (tr : list Event) : nat :=
  length (omap (λ e, match e with ESteamKill | EKillPid _ => Some e | _ => None end) tr).

(** The Steam directories whose configuration file was read. *)
Definition config_reads (tr : list Event) : list string :=
  omap (λ e, match e with EReadConfig d => Some d | _ => None end) tr.

(** The warnings logged, with their arguments. *)
Definition warnings (tr : list Event) : list (string * list (option string)) :=
  omap (λ e, match e with ELog Warning m a => Some (m, a) | _ => None end) tr.

(** The messages of the error dialogs shown. *)
Definition error_dialogs (tr : list Event) : list string :=
  omap (λ e, match e with EErrorDialog m => Some m | _ => None end) tr.

(** The configurations saved. *)
Definition saves (tr : list Event) : list (string * Sections) :=
  omap (λ e, match e with EConfigSave r d => Some (r, d) | _ => None end) tr.

(** The answer of the k-th probe of lutris.runners.steam from now on. *)
Definition probe (w : World) (k : nat) : bool :=
  steam_running (ptable w (k + tick w)).

End Trace.

(** ** What the properties speak about *)

Module Views.
Import Sys Winesteam.

(** The command [play] builds once the checks have passed. *)
Definition launch_command (self : Runner) (w : World) : list string :=
  let appid := Py.or_empty (game_config self !! "appid") in
  let args := Py.or_empty (game_config self !! "args") in
  let prefix := Py.or_empty (game_config self !! "prefix") in
  ["WINEDEBUG=fixme-all"]
  ++ (if Py.truthy (Some prefix) then ["WINEPREFIX=" +:+ Py.quoted prefix +:+ " "] else [])
  ++ launch_args self w
  ++ (if Py.truthy (Some appid) then ["-applaunch"; appid] else [])
  ++ (if Py.truthy (Some args) then [args] else []).

(** What the install manifest of the Steam directory holds for an appid. *)
Definition manifest_entry (self : Runner) (w : World) (appid : option string)
    : option string :=
  manifest_lookup w (OsPath.dirname (steam_path self w)) appid.

(** What the app registry of Steam's configuration file holds for an appid. *)
Definition config_entry (self : Runner) (w : World) (appid : option string)
    : option string :=
  config_lookup (steam_configs w !! OsPath.dirname (steam_path self w)) appid.

(** The directory [install] looks into: the default one after an installer
    ran, the folder picked in the dialog otherwise. *)
Definition install_dir (self : Runner) (w : World)
    (installer_path : option string) : option string :=
  if Py.truthy installer_path then Some (get_default_steam_dir self w None)
  else dialog_folder w.

(** The disk at the time [install] checks for Steam.exe. *)
Definition disk_at_check (w : World) (installer_path : option string)
    : gset string :=
  if Py.truthy installer_path
  then msi_effect w (default "" installer_path) (files w)
  else files w.

End Views.

(** ** More observations on a trace *)

Module Observations.
Import Sys.

(** The command lines run through [system.execute]. *)
Definition executed (tr : list Event) : list (list string) :=
  omap (λ e, match e with EExecute argv => Some argv | _ => None end) tr.

(** The number of probes of the native Steam. *)
Definition probes_made (tr : list Event) : nat :=
  length (omap (λ e, match e with ESteamIsRunning => Some e | _ => None end) tr).

(** The number of graceful shutdown requests to the native Steam. *)
Definition shutdown_requests (tr : list Event) : nat :=
  length (omap (λ e, match e with ESteamShutdown => Some e | _ => None end) tr).

(** The appids the install manifest was consulted for. *)
Definition manifest_reads (tr : list Event) : list (option string) :=
  omap (λ e, match e with EReadManifest _ a => Some a | _ => None end) tr.

(** The number of times [prepare_launch] ran. *)
Definition launch_preparations (tr : list Event) : nat :=
  length (omap (λ e, match e with EPrepareLaunch => Some e | _ => None end) tr).

(** The total time slept. *)
Definition time_slept (tr : list Event) : Z :=
  foldr Z.add 0 (Trace.sleeps tr).

End Observations.

(** ** What the further properties speak about *)

Module MoreViews.
Import Sys Winesteam WinesteamRest Views.
Local Open Scope py_scope.

(** What [install] does before it looks for Steam.exe. *)
Definition install_prelude (installer_path : option string) : list Event :=
  if Py.truthy installer_path then [EMsiExec (default "" installer_path)]
  else [EGdkThreadsEnter; EDirectoryDialog "Where is Steam.exe installed?";
        EGdkThreadsLeave].

(** What [get_game_data_path] finds: the manifest's entry, else the
    configuration's. *)
Definition resolved (self : Runner) (w : World) (appid : option string)
    : option string :=
  if Py.truthy (manifest_entry self w appid) then manifest_entry self w appid
  else config_entry self w appid.

(** The events of one resolution. *)
Definition resolution (self : Runner) (w : World) (appid : option string)
    : list Event :=
  let dir := OsPath.dirname (steam_path self w) in
  if Py.truthy (manifest_entry self w appid) then [EReadManifest dir appid]
  else [EReadManifest dir appid; EReadConfig dir; ELookupConfig appid]
       ++ (if Py.truthy (config_entry self w appid) then []
           else [ELog Warning "Data path for SteamApp %s not found." [appid]]).

(** The events up to the first kill. *)
Fixpoint before_first_kill (tr : list Event) : list Event :=
  match tr with
  | [] => []
  | ESteamKill :: _ => []
  | EKillPid _ :: _ => []
  | e :: rest => e :: before_first_kill rest
  end.

(** What the three queries of [shutdown] read. *)
Definition pid_read (w : World) : option Z :=
  pid_of (ptable w (tick w)) "Steam.exe$".
Definition cwd_read (w : World) : option string :=
  pid_read w ≫= cwd_of (ptable w (S (tick w))).
Definition cmdline_read (w : World) : option string :=
  pid_read w ≫= cmdline_of (ptable w (S (S (tick w)))).

(** What a [shutdown] that raises leaves behind: the three queries, and
    nothing else. *)
Definition shutdown_raised (e : Py.exn) (w : World) : Py.result unit * World :=
  (Py.Raised e,
   with_trace (trace w ++ [EGetPid "Steam.exe$"; EGetCwd (pid_read w);
                           EGetCommandLine (pid_read w)])
     (with_tick (S (S (S (tick w)))) w)).

End MoreViews.

(** ** Worlds to run the runner in *)

Module Fixtures.
Import Sys Winesteam.

(** No Steam in the process table. *)
Definition no_steam : Snapshot :=
  mkSnapshot (λ _, None) (λ _, None) (λ _, None) false.

(** Steam for Windows runs as pid 4242, and the native Steam runs too. *)
Definition steam_up : Snapshot :=
  mkSnapshot
    (λ pattern, if bool_decide (pattern = "Steam.exe$") then Some 4242 else None)
    (λ pid, if pid =? 4242 then Some "/home/u/.wine/drive_c/Program Files/Steam" else None)
    (λ pid, if pid =? 4242 then Some "Steam.exe" else None)
    true.

Definition steam_dir : string := "/home/u/.wine/drive_c/Program Files/Steam".
Definition steam_exe : string := "/home/u/.wine/drive_c/Program Files/Steam/Steam.exe".

(** A machine with wine, nothing on disk and nothing running. *)
Definition bare : World :=
  mkWorld (λ _, no_steam) 0 ∅ (λ _ fs, fs) "/home/u" (λ _, None)
          true "/usr/bin/wine" ∅ ∅ None ∅ [].

(** [bare] with Steam installed at the default location. *)
Definition installed : World := with_files {[ steam_exe ]} bare.

(** The process table of a world replaced by a script. *)
Definition with_ptable (script : nat → Snapshot) (w : World) : World :=
  mkWorld script (tick w) (files w) (msi_effect w) (env_home w) (pw_dir w)
          (depends_ok w) (wine_executable w) (manifests w) (steam_configs w)
          (dialog_folder w) (store w) (trace w).

(** Steam never exits. *)
Definition stubborn : World := with_ptable (λ _, steam_up) bare.

(** Steam is up at the first look and gone from the second on. *)
Definition exits_after_first_look : World :=
  with_ptable (λ k, match k with O => steam_up | _ => no_steam end) bare.

(** A runner with no option set, and one set up for Team Fortress 2. *)
Definition plain_runner : Runner := mkRunner (Some "wine") ∅ ∅.
Definition tf2_runner : Runner :=
  mkRunner (Some "wine") ∅ {[ "appid" := "440"; "args" := "-windowed" ]}.

(** Manifest and configuration file disagree on where app 440 lives; app
    570 is known to the configuration file only. *)
Definition conflicting : World :=
  mkWorld (λ _, no_steam) 0 {[ steam_exe ]} (λ _ fs, fs) "/home/u" (λ _, None)
          true "/usr/bin/wine"
          {[ steam_dir := {[ "440" := "/games/tf2" ]} ]}
          {[ steam_dir := {[ "apps" := {[ "440" := "/old/tf2"; "570" := "/games/dota" ]} ]} ]}
          None ∅ [].

(** The user picks a folder in the dialog. *)
Definition with_folder (folder : option string) (w : World) : World :=
  mkWorld (ptable w) (tick w) (files w) (msi_effect w) (env_home w) (pw_dir w)
          (depends_ok w) (wine_executable w) (manifests w) (steam_configs w)
          folder (store w) (trace w).

(** An installer that puts Steam.exe at the default location. *)
Definition with_working_installer (w : World) : World :=
  mkWorld (ptable w) (tick w) (files w) (λ _ fs, {[ steam_exe ]} ∪ fs)
          (env_home w) (pw_dir w) (depends_ok w) (wine_executable w)
          (manifests w) (steam_configs w) (dialog_folder w) (store w) (trace w).

End Fixtures.

Module MoreFixtures.
Import Sys Winesteam Fixtures.

(** Steam survives the graceful request and dies of the kill: up at the
    first two looks, gone from the third on. *)
Definition dies_when_killed : World :=
  with_ptable (λ k, match k with O | S O => steam_up | _ => no_steam end) bare.

(** Steam for Windows runs with an absolute command line and a working
    directory that can no longer be read. *)
Definition absolute_cmdline : Snapshot :=
  mkSnapshot
    (λ pattern, if bool_decide (pattern = "Steam.exe$") then Some 4242 else None)
    (λ _, None)
    (λ pid, if pid =? 4242 then Some "/opt/steam/Steam.exe" else None)
    true.

(** A Steam configuration file with a registry of two apps, one with an
    install section only, and an empty one. *)
Definition two_apps : World :=
  mkWorld (λ _, no_steam) 0 {[ steam_exe ]} (λ _ fs, fs) "/home/u" (λ _, None)
          true "/usr/bin/wine" ∅
          {[ steam_dir := {[ "apps" := {[ "440" := "/games/tf2"; "570" := "/games/dota" ]} ]} ]}
          None ∅ [].

Definition no_registry : World :=
  mkWorld (λ _, no_steam) 0 {[ steam_exe ]} (λ _ fs, fs) "/home/u" (λ _, None)
          true "/usr/bin/wine" ∅
          {[ steam_dir := {[ "install" := {[ "path" := "C:/Steam" ]} ]} ]}
          None ∅ [].

(** The registry lists app 440 with an empty install location. *)
Definition empty_entry : World :=
  mkWorld (λ _, no_steam) 0 {[ steam_exe ]} (λ _ fs, fs) "/home/u" (λ _, None)
          true "/usr/bin/wine" ∅
          {[ steam_dir := {[ "apps" := {[ "440" := "" ]} ]} ]}
          None ∅ [].

(** Wine is missing. *)
Definition without_wine (w : World) : World :=
  mkWorld (ptable w) (tick w) (files w) (msi_effect w) (env_home w) (pw_dir w)
          false (wine_executable w) (manifests w) (steam_configs w)
          (dialog_folder w) (store w) (trace w).

(** A runner for Team Fortress 2 in a prefix of its own. *)
Definition tf2_prefixed : Runner :=
  mkRunner (Some "wine") ∅
    {[ "appid" := "440"; "args" := "-windowed -novid"; "prefix" := "/home/u/tf2" ]}.

End MoreFixtures.

(** * Properties *)

(** The double quote as a literal character (code 34), for the statements
    that speak of quoting. *)
Abbreviation dq := (String "034"%char EmptyString).

Module PyFacts.
Import Py.

(** The quoting format puts its argument between two double quotes. *)
Lemma quoted_literal (s : string) : quoted s = dq +:+ s +:+ dq.
Proof. reflexivity. Qed.

Example quoted_wine :
  quoted "wine" = String (ascii_of_nat 34) ("wine" +:+ String (ascii_of_nat 34) "").
Proof. reflexivity. Qed.

Example quoted_length :
  String.length (quoted "C:/Program Files/Steam/Steam.exe")
  = (String.length "C:/Program Files/Steam/Steam.exe" + 2)%nat.
Proof. reflexivity. Qed.

Lemma truthy_Some_nonempty v : truthy v = true → ∃ s, v = Some s ∧ s ≠ "".
Proof.
  destruct v as [[|c s]|]; simpl; intros H; try discriminate.
  exists (String c s). split; [reflexivity | discriminate].
Qed.

Lemma truthy_nonempty (s : string) : s ≠ "" → truthy (Some s) = true.
Proof. destruct s; [congruence | reflexivity]. Qed.

Lemma or_empty_Some_nonempty (s : string) : s ≠ "" → or_empty (Some s) = s.
Proof. destruct s; [congruence | reflexivity]. Qed.

End PyFacts.

Module OsPathFacts.
Import OsPath.

Example dirname_file : dirname "/home/u/.wine/drive_c/Program Files/Steam/Steam.exe"
                       = "/home/u/.wine/drive_c/Program Files/Steam".
Proof. reflexivity. Qed.
Example dirname_root : dirname "/Steam.exe" = "/".
Proof. reflexivity. Qed.
Example dirname_relative : dirname "Steam.exe" = "".
Proof. reflexivity. Qed.
Example dirname_slashes : dirname "a//b" = "a".
Proof. reflexivity. Qed.
Example join_plain : join "/opt/steam" "Steam.exe" = "/opt/steam/Steam.exe".
Proof. reflexivity. Qed.
Example join_trailing : join "/opt/steam/" "Steam.exe" = "/opt/steam/Steam.exe".
Proof. reflexivity. Qed.
Example join_empty : join "" "Steam.exe" = "Steam.exe".
Proof. reflexivity. Qed.
Example join_absolute : join "/opt" "/x" = "/x".
Proof. reflexivity. Qed.
Example expanduser_wine : expanduser "/home/u/" (λ _, None) "~/.wine" = "/home/u/.wine".
Proof. reflexivity. Qed.
Example join_opt_none_cmdline :
  join_opt (Some "/opt/steam") None
  = Py.Raised (Py.AttributeError "'NoneType' object has no attribute 'startswith'").
Proof. reflexivity. Qed.

Lemma append_nonempty_r (a b : string) : b ≠ "" → a +:+ b ≠ "".
Proof.
  intros Hb. destruct a as [|c a]; [exact Hb | discriminate].
Qed.

(** Joining a non-empty component never gives the empty path. *)
Lemma join_nonempty (a b : string) : b ≠ "" → join a b ≠ "".
Proof.
  intros Hb. unfold join.
  destruct (startswith_slash b); [exact Hb |].
  destruct (bool_decide (a = "") || endswith_slash a).
  - by apply append_nonempty_r.
  - apply append_nonempty_r. discriminate.
Qed.

Lemma join_opt_Some (a b : string) : join_opt (Some a) (Some b) = Py.Ok (join a b).
Proof.
  unfold join_opt, join. destruct (startswith_slash b); reflexivity.
Qed.

(** Whatever the working directory read, a command line that reads as
    nothing makes the join raise. *)
Lemma join_opt_None_r (a : option string) : Py.is_ok (join_opt a None) = false.
Proof. reflexivity. Qed.

End OsPathFacts.

(** ** Traces *)

Module TraceFacts.
Import Sys Trace.

(** The events of a run that appended [evs] to the trace. *)
Lemma emitted_app {A} (w : World) (r : Py.result A * World) (evs : list Event) :
  trace (final r) = trace w ++ evs → emitted w r = evs.
Proof. unfold emitted. intros ->. apply drop_app_length. Qed.

End TraceFacts.

(** ** The shutdown sequence of [prelaunch] *)

Module PrelaunchFacts.
Import Sys Winesteam Trace Fixtures.

(** [prelaunch] is decided by the answers of at most three probes. *)
Lemma prelaunch_run (self : Runner) (w : World) :
  let r := prelaunch self w in
  value r =
    Py.Ok (negb (probe w 0) || negb (probe w 1) || negb (probe w 2)) ∧
  emitted w r =
    [ESteamIsRunning] ++
    (if probe w 0 then
       [ESteamShutdown; ELog Info "Waiting for Steam to shutdown..." [];
        ESleep 2; ESteamIsRunning] ++
       (if probe w 1 then
          [ELog Info "Steam does not shutdown, killing it..." []; ESteamKill;
           ESleep 2; ESteamIsRunning] ++
          (if probe w 2 then
             [ELog Error "Failed to shutdown Steam for Windows :(" []]
           else [])
        else [])
     else []).
Proof.
  unfold probe. cbn zeta.
  unfold prelaunch, steam_is_running, steam_shutdown, steam_kill, time_sleep,
    logger, look, emit, bind, ret, value. cbn.
  destruct (steam_running (ptable w (tick w))); cbn;
    [| split; [reflexivity | by apply TraceFacts.emitted_app]].
  destruct (steam_running (ptable w (S (tick w)))); cbn;
    [| split; [reflexivity | apply TraceFacts.emitted_app; cbn; by rewrite <- !app_assoc]].
  destruct (steam_running (ptable w (S (S (tick w))))); cbn;
    (split; [reflexivity | apply TraceFacts.emitted_app; cbn; by rewrite <- !app_assoc]).
Qed.

(** C5. When Steam is not running at the first probe, [prelaunch] returns
    [True] at once: the probe is all it does, so it never sleeps and never
    kills. *)
Theorem prelaunch_not_running (self : Runner) (w : World) :
  probe w 0 = false →
  let r := prelaunch self w in
  value r = Py.Ok true ∧
  emitted w r = [ESteamIsRunning] ∧
  sleeps (emitted w r) = [] ∧
  kills (emitted w r) = 0%nat.
Proof.
  intros H0 r. destruct (prelaunch_run self w) as [Hv He].
  fold r in Hv, He. rewrite Hv, He, H0. cbn. auto.
Qed.

(** C6. When Steam runs at the first probe and has exited by the probe that
    follows the first wait of 2 seconds, [prelaunch] returns [True] after
    that one wait and without any kill. *)
Theorem prelaunch_exits_after_request (self : Runner) (w : World) :
  probe w 0 = true →
  probe w 1 = false →
  let r := prelaunch self w in
  value r = Py.Ok true ∧
  sleeps (emitted w r) = [2] ∧
  kills (emitted w r) = 0%nat.
Proof.
  intros H0 H1 r. destruct (prelaunch_run self w) as [Hv He].
  fold r in Hv, He. rewrite Hv, He, H0, H1. cbn. auto.
Qed.

(** C2. When every probe of the escalation finds Steam still running,
    [prelaunch] returns [False] after exactly two waits of 2 seconds each
    and exactly one kill, the kill between the two waits. *)
Theorem prelaunch_never_exits (self : Runner) (w : World) :
  probe w 0 = true →
  probe w 1 = true →
  probe w 2 = true →
  let r := prelaunch self w in
  value r = Py.Ok false ∧
  sleeps (emitted w r) = [2; 2] ∧
  kills (emitted w r) = 1%nat ∧
  omap (λ e, match e with
             | ESleep _ | ESteamKill | EKillPid _ => Some e
             | _ => None
             end) (emitted w r) = [ESleep 2; ESteamKill; ESleep 2].
Proof.
  intros H0 H1 H2 r. destruct (prelaunch_run self w) as [Hv He].
  fold r in Hv, He. rewrite Hv, He, H0, H1, H2. cbn. auto.
Qed.

Lemma prelaunch_not_running_witness :
  value (prelaunch plain_runner bare) = Py.Ok true ∧
  emitted bare (prelaunch plain_runner bare) = [ESteamIsRunning] ∧
  sleeps (emitted bare (prelaunch plain_runner bare)) = [] ∧
  kills (emitted bare (prelaunch plain_runner bare)) = 0%nat.
Proof. apply (prelaunch_not_running plain_runner bare). reflexivity. Defined.

Lemma prelaunch_exits_after_request_witness :
  value (prelaunch plain_runner exits_after_first_look) = Py.Ok true ∧
  sleeps (emitted exits_after_first_look
            (prelaunch plain_runner exits_after_first_look)) = [2] ∧
  kills (emitted exits_after_first_look
           (prelaunch plain_runner exits_after_first_look)) = 0%nat.
Proof.
  apply (prelaunch_exits_after_request plain_runner exits_after_first_look);
    reflexivity.
Defined.

Lemma prelaunch_never_exits_witness :
  value (prelaunch plain_runner stubborn) = Py.Ok false ∧
  sleeps (emitted stubborn (prelaunch plain_runner stubborn)) = [2; 2] ∧
  kills (emitted stubborn (prelaunch plain_runner stubborn)) = 1%nat.
Proof.
  destruct (prelaunch_never_exits plain_runner stubborn eq_refl eq_refl eq_refl)
    as (Hv & Hs & Hk & _).
  exact (conj Hv (conj Hs Hk)).
Defined.

(** The three runs, evaluated. *)
Example prelaunch_stubborn_trace :
  emitted stubborn (prelaunch plain_runner stubborn) =
    [ESteamIsRunning; ESteamShutdown;
     ELog Info "Waiting for Steam to shutdown..." []; ESleep 2;
     ESteamIsRunning;
     ELog Info "Steam does not shutdown, killing it..." []; ESteamKill; ESleep 2;
     ESteamIsRunning;
     ELog Error "Failed to shutdown Steam for Windows :(" []].
Proof. reflexivity. Qed.

End PrelaunchFacts.

(** ** The executable, the installation check and the launch command *)

Module RunnerFacts.
Import Sys Winesteam Trace Views Fixtures.

(** The resolved path of Steam.exe is never the empty string. *)
Lemma steam_path_nonempty (self : Runner) (w : World) : steam_path self w ≠ "".
Proof.
  unfold steam_path.
  destruct (Py.truthy (runner_config self !! "steam_path")) eqn:Ht; cbn.
  - apply PyFacts.truthy_Some_nonempty in Ht as (s & -> & Hs). cbn.
    destruct (os_path_exists w s); [exact Hs |].
    by apply OsPathFacts.join_nonempty.
  - by apply OsPathFacts.join_nonempty.
Qed.

(** The resolved path is the configured one only if that one exists. *)
Lemma steam_path_configured_or_default (self : Runner) (w : World) :
  (∃ p, runner_config self !! "steam_path" = Some p ∧ steam_path self w = p
        ∧ os_path_exists w p = true)
  ∨ steam_path self w = OsPath.join (get_default_steam_dir self w None) "Steam.exe".
Proof.
  unfold steam_path.
  destruct (runner_config self !! "steam_path") as [[|c p]|]; cbn;
    [by right | | by right].
  destruct (os_path_exists w (String c p)) eqn:He; [left; by eexists | by right].
Qed.

Lemma is_installed_eq (self : Runner) (w : World) :
  is_installed self w = check_depends self w && os_path_exists w (steam_path self w).
Proof.
  unfold is_installed.
  rewrite (PyFacts.truthy_nonempty _ (steam_path_nonempty self w)).
  destruct (check_depends self w); reflexivity.
Qed.

(** C8. [is_installed()] is false whenever the resolved path of Steam.exe
    (the configured one if it exists, the default one otherwise) is not on
    disk, whatever the configuration holds; and it is true exactly when the
    dependency check passes and that path is on disk. *)
Theorem is_installed_iff (self : Runner) (w : World) :
  (os_path_exists w (steam_path self w) = false → is_installed self w = false) ∧
  (is_installed self w = true ↔
     check_depends self w = true ∧ os_path_exists w (steam_path self w) = true).
Proof.
  rewrite is_installed_eq. split.
  - intros ->. apply andb_false_r.
  - apply andb_true_iff.
Qed.

Lemma is_installed_iff_witness :
  is_installed plain_runner bare = false ∧
  is_installed plain_runner installed = true.
Proof.
  split.
  - apply (proj1 (is_installed_iff plain_runner bare)). reflexivity.
  - apply (proj2 (is_installed_iff plain_runner installed)). split; reflexivity.
Defined.

(** A configured path that is not on disk does not make the runner
    installed, and does not hide a Steam.exe at the default location. *)
Example is_installed_stale_configuration :
  let self := mkRunner (Some "wine") {[ "steam_path" := "/opt/steam/Steam.exe" ]} ∅ in
  is_installed self bare = false ∧ is_installed self installed = true.
Proof. split; reflexivity. Qed.

Lemma play_run (self : Runner) (w : World) :
  value (play self w) =
    Py.Ok (if negb (check_depends self w)
           then PlayError "RUNNER_NOT_INSTALLED" (depends self)
           else if negb (is_installed self w)
           then PlayError "RUNNER_NOT_INSTALLED" (Some class_name)
           else PlayCommand (launch_command self w)).
Proof.
  unfold play, launch_command. cbv zeta.
  destruct (Py.truthy (Some (Py.or_empty (game_config self !! "prefix"))));
    destruct (Py.truthy (Some (Py.or_empty (game_config self !! "appid"))));
    destruct (Py.truthy (Some (Py.or_empty (game_config self !! "args"))));
    unfold bind, gets, ret, logger, prepare_launch, emit, value; cbn;
    destruct (check_depends self w); cbn; try reflexivity;
    destruct (is_installed self w); cbn; try reflexivity;
    rewrite ?app_nil_r; reflexivity.
Qed.

(** C7. In a normal launch (the runner is installed) of appid 440 with the
    arguments -windowed, the command of [play()] ends in -applaunch, 440,
    -windowed, and just before them come the wine executable between double
    quotes, the path of Steam.exe between double quotes, and the flag
    -no-dwrite. *)
Theorem play_applaunch_tail (self : Runner) (w : World) :
  is_installed self w = true →
  game_config self !! "appid" = Some "440" →
  game_config self !! "args" = Some "-windowed" →
  ∃ env : list string,
    value (play self w) =
      Py.Ok (PlayCommand
               (env ++ [dq +:+ get_executable self w +:+ dq;
                        dq +:+ steam_path self w +:+ dq;
                        "-no-dwrite"]
                    ++ ["-applaunch"; "440"; "-windowed"])).
Proof.
  intros Hi Ha Hr. rewrite play_run.
  pose proof Hi as Hd. rewrite is_installed_eq in Hd.
  apply andb_true_iff in Hd as [Hd _]. rewrite Hd, Hi. cbn.
  unfold launch_command. rewrite Ha, Hr. cbn.
  eexists (["WINEDEBUG=fixme-all"] ++ _). rewrite <- app_assoc. reflexivity.
Qed.

Lemma play_applaunch_tail_witness :
  ∃ env : list string,
    value (play tf2_runner installed) =
      Py.Ok (PlayCommand
               (env ++ [dq +:+ "/usr/bin/wine" +:+ dq;
                        dq +:+ "/home/u/.wine/drive_c/Program Files/Steam/Steam.exe" +:+ dq;
                        "-no-dwrite"]
                    ++ ["-applaunch"; "440"; "-windowed"])).
Proof.
  apply (play_applaunch_tail tf2_runner installed); reflexivity.
Defined.

Example play_tf2 :
  value (play tf2_runner installed) =
    Py.Ok (PlayCommand
             ["WINEDEBUG=fixme-all";
              dq +:+ "/usr/bin/wine" +:+ dq;
              dq +:+ "/home/u/.wine/drive_c/Program Files/Steam/Steam.exe" +:+ dq;
              "-no-dwrite"; "-applaunch"; "440"; "-windowed"]).
Proof. reflexivity. Qed.

Example play_not_installed :
  value (play tf2_runner bare) =
    Py.Ok (PlayError "RUNNER_NOT_INSTALLED" (Some "winesteam")).
Proof. reflexivity. Qed.

(** C9. [play()] raises nothing.  It returns the error dictionary when the
    dependency check fails or the runner is not installed, and only then;
    otherwise it returns the dictionary holding the command. *)
Theorem play_structured_result (self : Runner) (w : World) :
  (∃ r, value (play self w) = Py.Ok r) ∧
  ((check_depends self w = false ∨ is_installed self w = false) ↔
     ∃ name, value (play self w) = Py.Ok (PlayError "RUNNER_NOT_INSTALLED" name)) ∧
  ((check_depends self w = true ∧ is_installed self w = true) ↔
     ∃ command, value (play self w) = Py.Ok (PlayCommand command)).
Proof.
  rewrite play_run.
  destruct (check_depends self w), (is_installed self w); cbn;
    (split; [eauto |]); split; split.
  all: try (intros [?|?]; discriminate). all: try (intros [? ?]; discriminate).
  all: try (intros [? [=]]). all: eauto.
Qed.

End RunnerFacts.

(** ** Resolving the data directories *)

Module ResolverFacts.
Import Sys Winesteam Trace Views Fixtures.

(** The two paths [get_game_data_path] can take. *)
Lemma get_game_data_path_eq (self : Runner) (appid : option string) (w : World) :
  let dir := OsPath.dirname (steam_path self w) in
  get_game_data_path self appid w =
    if Py.truthy (manifest_entry self w appid)
    then (Py.Ok (manifest_entry self w appid),
          with_trace (trace w ++ [EReadManifest dir appid]) w)
    else (Py.Ok (config_entry self w appid),
          with_trace
            (trace w ++
             [EReadManifest dir appid; EReadConfig dir; ELookupConfig appid]
             ++ (if Py.truthy (config_entry self w appid) then []
                 else [ELog Warning "Data path for SteamApp %s not found." [appid]]))
            w).
Proof.
  cbv zeta. unfold manifest_entry, config_entry.
  pose proof (PyFacts.truthy_nonempty _ (RunnerFacts.steam_path_nonempty self w)) as Hp.
  unfold get_game_data_path, get_path_from_appmanifest, get_steam_config,
    read_config, get_path_from_config, logger, bind, gets, emit, ret.
  cbn -[Py.truthy manifest_lookup config_lookup steam_path OsPath.dirname].
  change (manifest_lookup (with_trace _ w)) with (manifest_lookup w).
  destruct (Py.truthy (manifest_lookup w _ appid)) eqn:Hm;
    cbn -[Py.truthy manifest_lookup config_lookup steam_path OsPath.dirname].
  - rewrite Hm. reflexivity.
  - change (steam_path self (with_trace _ w)) with (steam_path self w).
    rewrite Hp.
    cbn -[Py.truthy manifest_lookup config_lookup steam_path OsPath.dirname].
    destruct (Py.truthy (config_lookup _ appid)) eqn:Hc;
      cbn -[Py.truthy manifest_lookup config_lookup steam_path OsPath.dirname];
      rewrite <- !app_assoc; reflexivity.
Qed.

Lemma get_game_data_path_run (self : Runner) (appid : option string) (w : World) :
  let dir := OsPath.dirname (steam_path self w) in
  let r := get_game_data_path self appid w in
  if Py.truthy (manifest_entry self w appid)
  then value r = Py.Ok (manifest_entry self w appid) ∧
       emitted w r = [EReadManifest dir appid]
  else value r = Py.Ok (config_entry self w appid) ∧
       emitted w r =
         [EReadManifest dir appid; EReadConfig dir; ELookupConfig appid]
         ++ (if Py.truthy (config_entry self w appid) then []
             else [ELog Warning "Data path for SteamApp %s not found." [appid]]).
Proof.
  cbv zeta. rewrite get_game_data_path_eq. cbv zeta.
  destruct (Py.truthy (manifest_entry self w appid));
    (split; [reflexivity | by apply TraceFacts.emitted_app]).
Qed.

(** C1. [get_game_data_path] consults the install manifest first.  When the
    manifest yields a path, that path is returned and the configuration
    file is not read, whatever it holds; when the manifest yields nothing,
    the configuration file is read after it and its value is returned. *)
Theorem get_game_data_path_manifest_first (self : Runner)
    (appid : option string) (w : World) :
  let dir := OsPath.dirname (steam_path self w) in
  let r := get_game_data_path self appid w in
  (Py.truthy (manifest_entry self w appid) = true →
     value r = Py.Ok (manifest_entry self w appid) ∧
     emitted w r = [EReadManifest dir appid] ∧
     config_reads (emitted w r) = []) ∧
  (Py.truthy (manifest_entry self w appid) = false →
     value r = Py.Ok (config_entry self w appid) ∧
     (∃ rest, emitted w r = EReadManifest dir appid :: EReadConfig dir :: rest) ∧
     config_reads (emitted w r) = [dir]).
Proof.
  intros dir r. pose proof (get_game_data_path_run self appid w) as H.
  cbv zeta in H. fold dir r in H. split; intros Hm; rewrite Hm in H.
  - destruct H as [Hv He]. rewrite He. auto.
  - destruct H as [Hv He]. rewrite He. split; [exact Hv |]. split; [by eexists |].
    cbn. by destruct (Py.truthy (config_entry self w appid)).
Qed.

Lemma get_game_data_path_manifest_first_witness :
  value (get_game_data_path tf2_runner (Some "440") conflicting)
    = Py.Ok (Some "/games/tf2") ∧
  config_reads (emitted conflicting
                  (get_game_data_path tf2_runner (Some "440") conflicting)) = [] ∧
  value (get_game_data_path tf2_runner (Some "570") conflicting)
    = Py.Ok (Some "/games/dota").
Proof.
  destruct (get_game_data_path_manifest_first tf2_runner (Some "440") conflicting)
    as [Hhit _].
  destruct (get_game_data_path_manifest_first tf2_runner (Some "570") conflicting)
    as [_ Hmiss].
  destruct (Hhit eq_refl) as (Hv & _ & Hc).
  destruct (Hmiss eq_refl) as (Hv' & _).
  exact (conj Hv (conj Hc Hv')).
Defined.

(** The entries of the two sources for app 440 do differ. *)
Example conflicting_entries :
  manifest_entry tf2_runner conflicting (Some "440") = Some "/games/tf2" ∧
  config_entry tf2_runner conflicting (Some "440") = Some "/old/tf2".
Proof. split; reflexivity. Qed.

(** The result of [get_steamapps_path], case by case. *)
Lemma get_steamapps_path_cases (self : Runner) (w : World) :
  let dir := OsPath.dirname (steam_path self w) in
  get_steamapps_path self w =
    if os_path_exists w (OsPath.join dir "SteamApps/common")
    then Py.Ok (OsPath.join dir "SteamApps/common")
    else if os_path_exists w (OsPath.join dir "steamapps/common")
    then Py.Ok (OsPath.join dir "steamapps/common")
    else Py.Raised (Py.IOError "Unable to locate SteamApps path").
Proof. reflexivity. Qed.

(** C4, as the code has it.  A lookup of [get_game_data_path] that finds
    nothing is returned as an empty value, with one warning, and not
    raised; [get_steamapps_path] returns the first of its two candidates
    that exists on disk, and raises IOError when neither does. *)
Theorem lookup_failures (self : Runner) (appid : option string) (w : World) :
  let dir := OsPath.dirname (steam_path self w) in
  let r := get_game_data_path self appid w in
  (∃ v, value r = Py.Ok v ∧
        (Py.truthy (manifest_entry self w appid) = false →
         Py.truthy (config_entry self w appid) = false →
         Py.truthy v = false ∧
         warnings (emitted w r) =
           [("Data path for SteamApp %s not found.", [appid])])) ∧
  (Py.is_ok (get_steamapps_path self w) =
     os_path_exists w (OsPath.join dir "SteamApps/common")
     || os_path_exists w (OsPath.join dir "steamapps/common")) ∧
  (∀ p, get_steamapps_path self w = Py.Ok p →
        os_path_exists w p = true ∧
        (p = OsPath.join dir "SteamApps/common" ∨
         p = OsPath.join dir "steamapps/common" ∧
         os_path_exists w (OsPath.join dir "SteamApps/common") = false)) ∧
  (os_path_exists w (OsPath.join dir "SteamApps/common") = false →
   os_path_exists w (OsPath.join dir "steamapps/common") = false →
   get_steamapps_path self w =
     Py.Raised (Py.IOError "Unable to locate SteamApps path")).
Proof.
  intros dir r. split; [| rewrite get_steamapps_path_cases; fold dir].
  - pose proof (get_game_data_path_run self appid w) as H.
    cbv zeta in H. fold dir r in H.
    destruct (Py.truthy (manifest_entry self w appid)).
    + destruct H as [Hv _]. eexists. split; [exact Hv | discriminate].
    + destruct H as [Hv He]. eexists. split; [exact Hv |].
      intros _ Hc. rewrite He, Hc. auto.
  - destruct (os_path_exists w (OsPath.join dir "SteamApps/common")) eqn:H1;
      [| destruct (os_path_exists w (OsPath.join dir "steamapps/common")) eqn:H2];
      cbn; (split; [reflexivity |]); (split; [| try discriminate; auto]).
    + intros ? [= <-]. auto.
    + intros ? [= <-]. auto.
    + intros ? [=].
Qed.

(** Steam is installed at the default location and neither candidate is
    on disk: [get_steamapps_path] raises. *)
Lemma get_steamapps_path_raises :
  os_path_exists installed (OsPath.join steam_dir "SteamApps/common") = false ∧
  os_path_exists installed (OsPath.join steam_dir "steamapps/common") = false ∧
  OsPath.dirname (steam_path plain_runner installed) = steam_dir ∧
  get_steamapps_path plain_runner installed =
    Py.Raised (Py.IOError "Unable to locate SteamApps path").
Proof. repeat split; reflexivity. Qed.

Lemma lookup_failures_witness :
  get_steamapps_path plain_runner installed =
    Py.Raised (Py.IOError "Unable to locate SteamApps path") ∧
  ∃ v, value (get_game_data_path tf2_runner (Some "10") conflicting) = Py.Ok v ∧
       Py.truthy v = false.
Proof.
  split.
  - apply (lookup_failures plain_runner None installed); reflexivity.
  - destruct (lookup_failures tf2_runner (Some "10") conflicting)
      as [(v & Hv & Hnone) _].
    exists v. split; [exact Hv |]. apply (Hnone eq_refl eq_refl).
Defined.

(** With the lower-case directory on disk, the second candidate is found. *)
Example get_steamapps_path_second :
  get_steamapps_path plain_runner
    (with_files {[ steam_exe; "/home/u/.wine/drive_c/Program Files/Steam/steamapps/common" ]} bare)
  = Py.Ok "/home/u/.wine/drive_c/Program Files/Steam/steamapps/common".
Proof. reflexivity. Qed.

End ResolverFacts.

(** ** Shutting Steam down and killing it *)

Module ShutdownFacts.
Import Sys Winesteam Trace Views Fixtures.
Local Arguments OsPath.join_opt : simpl never.
Local Arguments OsPath.join : simpl never.

(** With no Steam in the process table [shutdown()] returns [False] and
    does nothing else. *)
Lemma shutdown_not_running (w : World) :
  Py.truthy_int (pid_of (ptable w (tick w)) "Steam.exe$") = false →
  value (shutdown w) = Py.Ok (Some false) ∧
  emitted w (shutdown w) = [EGetPid "Steam.exe$"].
Proof.
  intros H. unfold shutdown, system_get_pid, look, bind, emit, ret, value. cbn.
  rewrite H. cbn. split; [reflexivity | by apply TraceFacts.emitted_app].
Qed.

(** With Steam found and both reads answered, [shutdown()] runs Steam.exe
    with -shutdown through wine. *)
Lemma shutdown_running (w : World) (pid : Z) (cwd cmdline : string) :
  pid_of (ptable w (tick w)) "Steam.exe$" = Some pid →
  pid ≠ 0 →
  cwd_of (ptable w (S (tick w))) pid = Some cwd →
  cmdline_of (ptable w (S (S (tick w)))) pid = Some cmdline →
  value (shutdown w) = Py.Ok None ∧
  last (emitted w (shutdown w))
    = Some (EExecute ["wine"; OsPath.join cwd cmdline; "-shutdown"]).
Proof.
  intros Hp Hz Hc Hl.
  unfold shutdown, system_get_pid, system_get_cwd, system_get_command_line,
    system_execute, logger, look, lift, bind, emit, ret, value.
  cbn. rewrite Hp. cbn. rewrite (proj2 (Z.eqb_neq pid 0) Hz). cbn.
  rewrite Hc, Hl. cbn. rewrite OsPathFacts.join_opt_Some. cbn.
  split; [reflexivity |].
  erewrite TraceFacts.emitted_app; [| cbn; by rewrite <- !app_assoc].
  reflexivity.
Qed.

(** When Steam is found but its command line reads as nothing, because the
    process has exited since the pid was looked up, [shutdown()] raises
    from [os.path.join] and never reaches the shutdown request. *)
Lemma shutdown_raises (w : World) (pid : Z) :
  pid_of (ptable w (tick w)) "Steam.exe$" = Some pid →
  pid ≠ 0 →
  cmdline_of (ptable w (S (S (tick w)))) pid = None →
  value (shutdown w) =
    Py.Raised (Py.AttributeError "'NoneType' object has no attribute 'startswith'") ∧
  emitted w (shutdown w) =
    [EGetPid "Steam.exe$"; EGetCwd (Some pid); EGetCommandLine (Some pid)].
Proof.
  intros Hp Hz Hl.
  unfold shutdown, system_get_pid, system_get_cwd, system_get_command_line,
    system_execute, logger, look, lift, bind, emit, ret, value.
  cbn. rewrite Hp. cbn. rewrite (proj2 (Z.eqb_neq pid 0) Hz). cbn.
  rewrite Hl. cbn. split; [reflexivity |].
  apply TraceFacts.emitted_app. cbn. by rewrite <- !app_assoc.
Qed.

(** C3, where the code departs from it.  Steam is found as pid 4242 and
    exits before its working directory and command line are read: both reads
    return nothing, and [shutdown()] raises AttributeError instead of
    completing. *)
Theorem shutdown_raises_when_process_exits :
  pid_of (ptable exits_after_first_look 0) "Steam.exe$" = Some 4242 ∧
  cwd_of (ptable exits_after_first_look 1) 4242 = None ∧
  cmdline_of (ptable exits_after_first_look 2) 4242 = None ∧
  value (shutdown exits_after_first_look) =
    Py.Raised (Py.AttributeError "'NoneType' object has no attribute 'startswith'") ∧
  emitted exits_after_first_look (shutdown exits_after_first_look) =
    [EGetPid "Steam.exe$"; EGetCwd (Some 4242); EGetCommandLine (Some 4242)].
Proof.
  split; [reflexivity |]. split; [reflexivity |]. split; [reflexivity |].
  apply (shutdown_raises exits_after_first_look 4242); [reflexivity | lia | reflexivity].
Qed.

(** [kill()] on a Steam that is already gone passes [None] to
    [system.kill_pid] and returns. *)
Example kill_not_running :
  value (kill bare) = Py.Ok tt ∧
  emitted bare (kill bare) = [EGetPid "Steam.exe$"; EKillPid None].
Proof. split; reflexivity. Qed.

End ShutdownFacts.

(** ** Installing *)

Module InstallFacts.
Import Sys Winesteam Trace Views Fixtures.
Local Arguments OsPath.join_opt : simpl never.
Local Arguments OsPath.join : simpl never.

(** X26. Whenever [install()] has a directory to look into (the default
    one after an installer ran, the folder chosen in the dialog otherwise),
    it saves exactly when that directory holds Steam.exe on disk.  What it
    saves, as the configuration of the runner winesteam, is the document
    with the one section winesteam and the one key steam_path, whose value
    is the path of that Steam.exe.  When the directory does not hold
    Steam.exe, the error dialog is shown, nothing is saved and the stored
    configuration is as before. *)
Theorem install_persists_iff_found (self : Runner)
    (installer_path : option string) (w : World) (dir : string) :
  install_dir self w installer_path = Some dir →
  let exe := OsPath.join dir "Steam.exe" in
  let document : Sections := {[ "winesteam" := {[ "steam_path" := exe ]} ]} in
  let r := install self installer_path w in
  value r = Py.Ok tt ∧
  files (final r) = disk_at_check w installer_path ∧
  (saves (emitted w r) ≠ [] ↔ exe ∈ files (final r)) ∧
  (exe ∈ files (final r) →
     store (final r) = <["winesteam" := document]> (store w) ∧
     (saved ← store (final r) !! "winesteam";
      section ← saved !! "winesteam";
      section !! "steam_path") = Some exe ∧
     saves (emitted w r) = [("winesteam", document)] ∧
     error_dialogs (emitted w r) = []) ∧
  (exe ∉ files (final r) →
     store (final r) = store w ∧
     saves (emitted w r) = [] ∧
     error_dialogs (emitted w r) = ["Can't find Steam.exe in the selected folder"]).
Proof.
  unfold install_dir, disk_at_check. intros Hd. cbv zeta.
  unfold install, msi_exec, directory_dialog, config_save, error_dialog,
    lift, bind, gets, emit, ret, value, final, os_path_exists.
  destruct (Py.truthy installer_path); cbn; cbn in Hd.
  - injection Hd as <-. rewrite OsPathFacts.join_opt_Some. cbn.
    case_bool_decide as Hin; cbn.
    all: erewrite TraceFacts.emitted_app;
      [| unfold final; cbn; by rewrite <- !app_assoc].
    all: cbn; repeat split; try done.
    all: rewrite lookup_insert_eq; cbn; unfold install_document;
      rewrite lookup_singleton_eq; cbn; by rewrite lookup_singleton_eq.
  - rewrite Hd. rewrite OsPathFacts.join_opt_Some. cbn.
    case_bool_decide as Hin; cbn.
    all: erewrite TraceFacts.emitted_app;
      [| unfold final; cbn; by rewrite <- !app_assoc].
    all: cbn; repeat split; try done.
    all: rewrite lookup_insert_eq; cbn; unfold install_document;
      rewrite lookup_singleton_eq; cbn; by rewrite lookup_singleton_eq.
Qed.

Lemma install_persists_iff_found_witness :
  store (final (install plain_runner None (with_folder (Some steam_dir) installed)))
    = <["winesteam" :=
          {[ "winesteam" :=
               {[ "steam_path" :=
                    "/home/u/.wine/drive_c/Program Files/Steam/Steam.exe" ]} ]}]> ∅ ∧
  store (final (install plain_runner None (with_folder (Some "/tmp") installed)))
    = ∅ ∧
  error_dialogs (emitted (with_folder (Some "/tmp") installed)
                   (install plain_runner None (with_folder (Some "/tmp") installed)))
    = ["Can't find Steam.exe in the selected folder"].
Proof.
  destruct (install_persists_iff_found plain_runner None
              (with_folder (Some steam_dir) installed) steam_dir eq_refl)
    as (_ & _ & _ & Hfound & _).
  destruct (install_persists_iff_found plain_runner None
              (with_folder (Some "/tmp") installed) "/tmp" eq_refl)
    as (_ & _ & _ & _ & Hmissing).
  split.
  - apply Hfound. apply (bool_decide_unpack _). vm_compute. exact I.
  - assert (Hn : OsPath.join "/tmp" "Steam.exe"
                 ∉ files (final (install plain_runner None
                                   (with_folder (Some "/tmp") installed)))).
    { apply (bool_decide_unpack _). vm_compute. exact I. }
    destruct (Hmissing Hn) as (Hs & _ & He). exact (conj Hs He).
Defined.

(** The document [install] saves holds the path under winesteam and
    steam_path. *)
Lemma install_document_lookup (path : string) :
  (section ← install_document path !! "winesteam"; section !! "steam_path")
  = Some path.
Proof.
  unfold install_document. rewrite lookup_singleton_eq. cbn.
  by rewrite lookup_singleton_eq.
Qed.

(** An installer that puts Steam.exe in place makes [install] save its
    path; one that does nothing leaves the error dialog. *)
Example install_with_installer :
  saves (emitted (with_working_installer bare)
           (install plain_runner (Some "/tmp/SteamInstall.msi")
              (with_working_installer bare)))
    = [("winesteam", install_document steam_exe)] ∧
  error_dialogs (emitted bare (install plain_runner (Some "/tmp/SteamInstall.msi") bare))
    = ["Can't find Steam.exe in the selected folder"].
Proof. split; vm_compute; reflexivity. Qed.

(** When the dialog yields no folder, [install] raises from [os.path.join]
    and saves nothing. *)
Lemma install_no_folder (self : Runner) (w : World) :
  dialog_folder w = None →
  Py.is_ok (value (install self None w)) = false ∧
  store (final (install self None w)) = store w.
Proof.
  intros Hd.
  unfold install, directory_dialog, lift, bind, gets, emit, ret, value, final.
  cbn. rewrite Hd. cbn. auto.
Qed.

End InstallFacts.

(** * Further properties *)

(** ** Strings and paths *)

Module StringFacts.
Import OsPath.

Lemma app_cons (c : ascii) (x s : string) : String c x +:+ s = String c (x +:+ s).
Proof. reflexivity. Qed.

Lemma app_empty_l (s : string) : "" +:+ s = s.
Proof. reflexivity. Qed.

Lemma app_assoc_str (x y z : string) : (x +:+ y) +:+ z = x +:+ y +:+ z.
Proof. induction x as [|c x IH]; [reflexivity |]. rewrite !app_cons. by f_equal. Qed.

Lemma app_empty_inv (x s : string) : x +:+ s = "" → s = "".
Proof. destruct x; [by rewrite app_empty_l | rewrite app_cons; discriminate]. Qed.

Lemma endswith_slash_app (x s : string) :
  s ≠ "" → endswith_slash (x +:+ s) = endswith_slash s.
Proof.
  intros Hs. induction x as [|c x IH]; [reflexivity |].
  rewrite app_cons. cbn [endswith_slash].
  destruct (x +:+ s) eqn:E; [by apply app_empty_inv in E | exact IH].
Qed.

Lemma all_slashes_app (x s : string) :
  all_slashes (x +:+ s) = all_slashes x && all_slashes s.
Proof.
  induction x as [|c x IH]; [reflexivity |].
  rewrite app_cons. cbn [all_slashes]. rewrite IH. apply andb_assoc.
Qed.

Lemma upto_last_slash_app (x s : string) :
  upto_last_slash s ≠ "" → upto_last_slash (x +:+ s) = x +:+ upto_last_slash s.
Proof.
  intros Hs. induction x as [|c x IH]; [reflexivity |].
  rewrite !app_cons. cbn [upto_last_slash]. rewrite IH.
  destruct (x +:+ upto_last_slash s) eqn:E; [by apply app_empty_inv in E | reflexivity].
Qed.

Lemma rstrip_slash_app (x s : string) :
  rstrip_slash s ≠ "" → rstrip_slash (x +:+ s) = x +:+ rstrip_slash s.
Proof.
  intros Hs. induction x as [|c x IH]; [reflexivity |].
  rewrite !app_cons. cbn [rstrip_slash]. rewrite IH.
  destruct (x +:+ rstrip_slash s) eqn:E; [by apply app_empty_inv in E | reflexivity].
Qed.

(** Stripping trailing slashes leaves no trailing slash. *)
Lemma rstrip_slash_no_trailing (s : string) : endswith_slash (rstrip_slash s) = false.
Proof.
  induction s as [|c s IH]; [reflexivity |]. cbn [rstrip_slash].
  destruct (rstrip_slash s) eqn:E.
  - destruct (is_slash c) eqn:Hc; [reflexivity |]. cbn. exact Hc.
  - cbn [endswith_slash] in *. exact IH.
Qed.

Lemma rstrip_slash_id (s : string) : endswith_slash s = false → rstrip_slash s = s.
Proof.
  induction s as [|c s IH]; [reflexivity |]. cbn [endswith_slash rstrip_slash].
  destruct s as [|c' s'].
  - intros ->. reflexivity.
  - intros H. rewrite (IH H). reflexivity.
Qed.

Lemma rstrip_slash_idem (s : string) : rstrip_slash (rstrip_slash s) = rstrip_slash s.
Proof. apply rstrip_slash_id, rstrip_slash_no_trailing. Qed.

(** A non-empty path with no trailing slash holds a character that is not a
    slash. *)
Lemma no_trailing_not_all_slashes (s : string) :
  s ≠ "" → endswith_slash s = false → all_slashes s = false.
Proof.
  induction s as [|c s IH]; [congruence |]. intros _.
  cbn [endswith_slash all_slashes]. destruct s as [|c' s'].
  - intros ->. reflexivity.
  - intros H. rewrite IH; [apply andb_false_r | discriminate | exact H].
Qed.

(** Joining a relative component to a directory with no trailing slash. *)
Lemma join_relative (d b : string) :
  d ≠ "" → endswith_slash d = false → startswith_slash b = false →
  join d b = d +:+ "/" +:+ b.
Proof.
  intros Hd He Hb. unfold join. rewrite Hb, He.
  rewrite bool_decide_eq_false_2 by exact Hd. reflexivity.
Qed.

(** [dirname] undoes the join of a file name to a directory that is not
    empty and has no trailing slash. *)
Lemma dirname_join_file (d b : string) :
  d ≠ "" → endswith_slash d = false →
  startswith_slash b = false → upto_last_slash b = "" →
  dirname (join d b) = d.
Proof.
  intros Hd He Hb Hu. rewrite join_relative by assumption.
  unfold dirname.
  assert (Hup : upto_last_slash (d +:+ "/" +:+ b) = d +:+ "/").
  { rewrite upto_last_slash_app.
    - rewrite app_cons, app_empty_l. cbn [upto_last_slash]. by rewrite Hu.
    - rewrite app_cons, app_empty_l. cbn [upto_last_slash]. by rewrite Hu. }
  rewrite Hup. rewrite all_slashes_app.
  rewrite (no_trailing_not_all_slashes d Hd He). cbn [andb negb].
  rewrite bool_decide_eq_false_2.
  - cbn [negb andb]. clear Hup Hu Hb.
    induction d as [|c d IH]; [congruence |].
    rewrite app_cons. cbn [rstrip_slash]. destruct d as [|c' d'].
    + rewrite app_empty_l. cbn. cbn in He. by rewrite He.
    + rewrite IH; [reflexivity | discriminate | exact He].
  - intros E. apply app_empty_inv in E. discriminate.
Qed.

End StringFacts.

(** ** Where Steam is looked for *)

Module LocationFacts.
Import Sys Winesteam WinesteamRest Trace Views Observations MoreViews Fixtures MoreFixtures.
Local Arguments OsPath.join : simpl never.
Local Arguments OsPath.join_opt : simpl never.
Local Arguments OsPath.dirname : simpl never.
Local Arguments OsPath.rstrip_slash : simpl never.

(** [~/.wine] expands to the home directory followed by /.wine. *)
Lemma expanduser_wine_home (home : string) (pw : string → option string) :
  OsPath.expanduser home pw "~/.wine" = OsPath.rstrip_slash home +:+ "/.wine".
Proof.
  transitivity (if bool_decide (OsPath.rstrip_slash home +:+ "/.wine" = "")
                then "/" else OsPath.rstrip_slash home +:+ "/.wine").
  - reflexivity.
  - rewrite bool_decide_eq_false_2; [reflexivity |].
    intros E. apply StringFacts.app_empty_inv in E. discriminate.
Qed.

(** The default Steam directory, spelled out. *)
Lemma get_default_steam_dir_home (self : Runner) (w : World) :
  get_default_steam_dir self w None
  = OsPath.rstrip_slash (env_home w) +:+ "/.wine/drive_c/Program Files/Steam".
Proof.
  unfold get_default_steam_dir. cbn [Py.truthy negb].
  rewrite expanduser_wine_home.
  rewrite StringFacts.join_relative.
  - by rewrite StringFacts.app_assoc_str.
  - intros E. apply StringFacts.app_empty_inv in E. discriminate.
  - by rewrite StringFacts.endswith_slash_app.
  - reflexivity.
Qed.

Lemma default_dir_wellformed (self : Runner) (w : World) :
  get_default_steam_dir self w None ≠ "" ∧
  OsPath.endswith_slash (get_default_steam_dir self w None) = false.
Proof.
  rewrite get_default_steam_dir_home. split.
  - intros E. apply StringFacts.app_empty_inv in E. discriminate.
  - by rewrite StringFacts.endswith_slash_app.
Qed.

(** The path of Steam.exe when it is not configured, or configured to a path
    that is not on disk. *)
Lemma steam_path_fallback (self : Runner) (w : World) :
  (∀ p, runner_config self !! "steam_path" = Some p → os_path_exists w p = false) →
  steam_path self w = OsPath.join (get_default_steam_dir self w None) "Steam.exe".
Proof.
  intros Hstale. unfold steam_path.
  destruct (runner_config self !! "steam_path") as [p|]; cbn; [| reflexivity].
  rewrite (Hstale p eq_refl). by rewrite andb_false_r.
Qed.

(** X1. Without a configured path, or with one that is not on disk, the
    path of Steam.exe is the home directory, its trailing slashes dropped,
    followed by /.wine/drive_c/Program Files/Steam/Steam.exe. *)
Theorem steam_path_default_location (self : Runner) (w : World) :
  (∀ p, runner_config self !! "steam_path" = Some p → os_path_exists w p = false) →
  steam_path self w
  = OsPath.rstrip_slash (env_home w)
    +:+ "/.wine/drive_c/Program Files/Steam/Steam.exe".
Proof.
  intros Hstale. rewrite steam_path_fallback by exact Hstale.
  destruct (default_dir_wellformed self w) as [Hne Hend].
  rewrite StringFacts.join_relative by (assumption || reflexivity).
  rewrite get_default_steam_dir_home. by rewrite StringFacts.app_assoc_str.
Qed.

Lemma steam_path_default_location_witness :
  steam_path (mkRunner (Some "wine") {[ "steam_path" := "/opt/steam/Steam.exe" ]} ∅)
             installed
  = OsPath.rstrip_slash "/home/u" +:+ "/.wine/drive_c/Program Files/Steam/Steam.exe".
Proof.
  apply (steam_path_default_location
           (mkRunner (Some "wine") {[ "steam_path" := "/opt/steam/Steam.exe" ]} ∅)
           installed).
  intros p Hp. vm_compute in Hp. injection Hp as <-. reflexivity.
Defined.

(** A configured path that exists on disk is used as it is, whatever is at
    the default location. *)
Lemma steam_path_configured (self : Runner) (w : World) (p : string) :
  runner_config self !! "steam_path" = Some p →
  os_path_exists w p = true →
  p ≠ "" →
  steam_path self w = p.
Proof.
  intros Hp He Hn. unfold steam_path. rewrite Hp. cbn -[Py.truthy].
  rewrite (PyFacts.truthy_nonempty p Hn), He. reflexivity.
Qed.

(** X2. When the default location is used, the Steam directory the
    resolvers derive from it with [os.path.dirname] is the default Steam
    directory again. *)
Theorem steam_directory_default (self : Runner) (w : World) :
  (∀ p, runner_config self !! "steam_path" = Some p → os_path_exists w p = false) →
  OsPath.dirname (steam_path self w) = get_default_steam_dir self w None.
Proof.
  intros Hstale. rewrite steam_path_fallback by exact Hstale.
  destruct (default_dir_wellformed self w) as [Hne Hend].
  by apply StringFacts.dirname_join_file.
Qed.

Lemma steam_directory_default_witness :
  OsPath.dirname (steam_path plain_runner bare)
  = get_default_steam_dir plain_runner bare None.
Proof.
  apply (steam_directory_default plain_runner bare).
  intros p Hp. vm_compute in Hp. discriminate.
Defined.

End LocationFacts.

(** ** Installing, further *)

Module InstallMoreFacts.
Import Sys Winesteam WinesteamRest Trace Views Observations MoreViews Fixtures MoreFixtures.
Local Arguments OsPath.join : simpl never.
Local Arguments OsPath.join_opt : simpl never.
Local Arguments OsPath.dirname : simpl never.

(** The run of [install] when there is a directory to look into. *)
Lemma install_run (self : Runner) (installer_path : option string)
    (w : World) (dir : string) :
  install_dir self w installer_path = Some dir →
  install self installer_path w =
    let exe := OsPath.join dir "Steam.exe" in
    let disk := disk_at_check w installer_path in
    if bool_decide (exe ∈ disk)
    then (Py.Ok tt,
          with_store (<["winesteam" := install_document exe]> (store w))
            (with_trace (trace w ++ install_prelude installer_path
                                 ++ [EConfigSave "winesteam" (install_document exe)])
               (with_files disk w)))
    else (Py.Ok tt,
          with_trace (trace w ++ install_prelude installer_path
                               ++ [EErrorDialog "Can't find Steam.exe in the selected folder"])
            (with_files disk w)).
Proof.
  unfold install_dir, disk_at_check, install_prelude. intros Hd. cbv zeta.
  unfold install, msi_exec, directory_dialog, config_save, error_dialog,
    lift, bind, gets, emit, ret, os_path_exists.
  destruct (Py.truthy installer_path); cbn; cbn in Hd.
  - injection Hd as <-. rewrite OsPathFacts.join_opt_Some. cbn.
    change (get_default_steam_dir self (with_files _ _) None)
      with (get_default_steam_dir self w None).
    case_bool_decide; cbn; unfold with_store, with_trace, with_files; cbn;
      rewrite <- ?app_assoc; reflexivity.
  - rewrite Hd. rewrite OsPathFacts.join_opt_Some. cbn.
    case_bool_decide; cbn; unfold with_store, with_trace, with_files; cbn;
      rewrite <- ?app_assoc; cbn; destruct w; reflexivity.
Qed.

(** The run of [install] when the dialog yields no folder. *)
Lemma install_run_no_folder (self : Runner) (installer_path : option string)
    (w : World) :
  install_dir self w installer_path = None →
  install self installer_path w =
    (Py.Raised (Py.AttributeError "'NoneType' object has no attribute 'endswith'"),
     with_trace (trace w ++ install_prelude installer_path) w).
Proof.
  unfold install_dir, install_prelude. intros Hd.
  unfold install, msi_exec, directory_dialog, lift, bind, gets, emit, ret.
  destruct (Py.truthy installer_path); [discriminate |]. cbn. rewrite Hd. cbn.
  unfold with_trace; cbn. rewrite <- !app_assoc. reflexivity.
Qed.

(** C10, where the code departs from it.  No installer is given and the
    directory dialog yields no folder, so there is no directory that could
    hold Steam.exe: [install()] raises AttributeError from [os.path.join]
    and shows no error dialog.  Nothing is saved. *)
Theorem install_raises_without_error_dialog :
  dialog_folder bare = None ∧
  value (install plain_runner None bare) =
    Py.Raised (Py.AttributeError "'NoneType' object has no attribute 'endswith'") ∧
  error_dialogs (emitted bare (install plain_runner None bare)) = [] ∧
  saves (emitted bare (install plain_runner None bare)) = [] ∧
  store (final (install plain_runner None bare)) = store bare.
Proof.
  split; [reflexivity |].
  rewrite (install_run_no_folder plain_runner None bare eq_refl).
  erewrite TraceFacts.emitted_app; [| unfold final; cbn; reflexivity].
  repeat split.
Qed.

(** X3. Once [install] has saved a path, a runner configured with that
    path resolves Steam.exe to it, and is installed as soon as the
    dependency check passes. *)
Theorem install_then_installed (self self' : Runner)
    (installer_path : option string) (w : World) (dir : string) :
  install_dir self w installer_path = Some dir →
  let exe := OsPath.join dir "Steam.exe" in
  let w' := final (install self installer_path w) in
  saves (emitted w (install self installer_path w)) ≠ [] →
  runner_config self' !! "steam_path" = Some exe →
  steam_path self' w' = exe ∧ is_installed self' w' = check_depends self' w.
Proof.
  intros Hd exe w' Hsaved Hcfg. subst w'.
  pose proof (install_run self installer_path w dir Hd) as Hrun. cbv zeta in Hrun.
  fold exe in Hrun.
  assert (Hin : exe ∈ disk_at_check w installer_path).
  { destruct (bool_decide (exe ∈ disk_at_check w installer_path)) eqn:Hb;
      [by apply bool_decide_eq_true in Hb |].
    exfalso. apply Hsaved. rewrite Hrun.
    erewrite TraceFacts.emitted_app; [| unfold final; cbn; reflexivity].
    unfold install_prelude. by destruct (Py.truthy installer_path). }
  rewrite Hrun, (bool_decide_eq_true_2 _ Hin). unfold final. cbn [snd].
  assert (Hex : os_path_exists
                  (with_store (<["winesteam":=install_document exe]> (store w))
                     (with_trace
                        (trace w ++ install_prelude installer_path ++
                         [EConfigSave "winesteam" (install_document exe)])
                        (with_files (disk_at_check w installer_path) w))) exe = true).
  { unfold os_path_exists. cbn. by apply bool_decide_eq_true_2. }
  assert (Hne : exe ≠ "") by (by apply OsPathFacts.join_nonempty).
  assert (Hsp := LocationFacts.steam_path_configured self' _ exe Hcfg Hex Hne).
  split; [exact Hsp |].
  rewrite RunnerFacts.is_installed_eq, Hsp, Hex. unfold check_depends. cbn.
  apply andb_true_r.
Qed.

Lemma install_then_installed_witness :
  steam_path (mkRunner (Some "wine") {[ "steam_path" := "/opt/steam/Steam.exe" ]} ∅)
    (final (install plain_runner None
              (with_folder (Some "/opt/steam")
                 (with_files {[ "/opt/steam/Steam.exe" ]} bare))))
  = "/opt/steam/Steam.exe" ∧
  is_installed (mkRunner (Some "wine") {[ "steam_path" := "/opt/steam/Steam.exe" ]} ∅)
    (final (install plain_runner None
              (with_folder (Some "/opt/steam")
                 (with_files {[ "/opt/steam/Steam.exe" ]} bare))))
  = true.
Proof.
  apply (install_then_installed plain_runner
           (mkRunner (Some "wine") {[ "steam_path" := "/opt/steam/Steam.exe" ]} ∅)
           None
           (with_folder (Some "/opt/steam")
              (with_files {[ "/opt/steam/Steam.exe" ]} bare))
           "/opt/steam" eq_refl).
  - intros H. apply (f_equal length) in H. vm_compute in H. discriminate H.
  - reflexivity.
Defined.

(** X4. [install] never saves the path of a Steam.exe that is not on disk:
    whatever the installer does and whatever the dialog yields, every save
    is for the runner winesteam and holds a path that exists when [install]
    returns. *)
Theorem install_saves_only_existing (self : Runner)
    (installer_path : option string) (w : World) :
  let r := install self installer_path w in
  ∀ runner document,
    (runner, document) ∈ saves (emitted w r) →
    runner = "winesteam" ∧
    ∃ exe, document = install_document exe ∧ os_path_exists (final r) exe = true.
Proof.
  intros r runner document Hin. subst r.
  destruct (install_dir self w installer_path) as [dir|] eqn:Hd.
  - rewrite (install_run self installer_path w dir Hd) in Hin |- *. cbv zeta in *.
    case_bool_decide as Hex.
    + erewrite TraceFacts.emitted_app in Hin; [| unfold final; cbn; reflexivity].
      assert (Hs : saves (install_prelude installer_path
                          ++ [EConfigSave "winesteam"
                                (install_document (OsPath.join dir "Steam.exe"))])
                   = [("winesteam", install_document (OsPath.join dir "Steam.exe"))]).
      { unfold install_prelude. by destruct (Py.truthy installer_path). }
      rewrite Hs in Hin. apply list_elem_of_singleton in Hin. injection Hin as -> ->.
      split; [reflexivity |]. eexists. split; [reflexivity |].
      unfold final, os_path_exists. cbn. by apply bool_decide_eq_true_2.
    + erewrite TraceFacts.emitted_app in Hin; [| unfold final; cbn; reflexivity].
      assert (Hs : saves (install_prelude installer_path
                          ++ [EErrorDialog "Can't find Steam.exe in the selected folder"])
                   = []).
      { unfold install_prelude. by destruct (Py.truthy installer_path). }
      rewrite Hs in Hin. by apply elem_of_nil in Hin.
  - rewrite (install_run_no_folder self installer_path w Hd) in Hin.
    erewrite TraceFacts.emitted_app in Hin; [| unfold final; cbn; reflexivity].
    assert (Hs : saves (install_prelude installer_path) = []).
    { unfold install_prelude. by destruct (Py.truthy installer_path). }
    rewrite Hs in Hin. by apply elem_of_nil in Hin.
Qed.

Lemma install_saves_only_existing_witness :
  ∃ exe,
    install_document steam_exe = install_document exe ∧
    os_path_exists
      (final (install plain_runner None (with_folder (Some steam_dir) installed)))
      exe = true.
Proof.
  assert (Hs : saves (emitted (with_folder (Some steam_dir) installed)
                        (install plain_runner None
                           (with_folder (Some steam_dir) installed)))
               = [("winesteam", install_document steam_exe)])
    by (vm_compute; reflexivity).
  assert (Hin : ("winesteam", install_document steam_exe)
                ∈ saves (emitted (with_folder (Some steam_dir) installed)
                           (install plain_runner None
                              (with_folder (Some steam_dir) installed)))).
  { rewrite Hs. by apply list_elem_of_singleton. }
  exact (proj2 (install_saves_only_existing plain_runner None
                  (with_folder (Some steam_dir) installed)
                  "winesteam" (install_document steam_exe) Hin)).
Defined.

(** X5. When no installer is given and the dialog yields no folder,
    [install] raises AttributeError from [os.path.join]: the GDK lock has
    been released, no error dialog is shown, and nothing is saved. *)
Theorem install_without_folder (self : Runner)
    (installer_path : option string) (w : World) :
  Py.truthy installer_path = false →
  dialog_folder w = None →
  let r := install self installer_path w in
  value r = Py.Raised (Py.AttributeError "'NoneType' object has no attribute 'endswith'") ∧
  emitted w r = [EGdkThreadsEnter; EDirectoryDialog "Where is Steam.exe installed?";
                 EGdkThreadsLeave] ∧
  store (final r) = store w ∧
  files (final r) = files w.
Proof.
  intros Hi Hf r. subst r.
  rewrite install_run_no_folder by (unfold install_dir; by rewrite Hi).
  unfold install_prelude. rewrite Hi. repeat split.
  by apply TraceFacts.emitted_app.
Qed.

Lemma install_without_folder_witness :
  value (install plain_runner None bare)
  = Py.Raised (Py.AttributeError "'NoneType' object has no attribute 'endswith'") ∧
  emitted bare (install plain_runner None bare)
  = [EGdkThreadsEnter; EDirectoryDialog "Where is Steam.exe installed?";
     EGdkThreadsLeave] ∧
  store (final (install plain_runner None bare)) = store bare ∧
  files (final (install plain_runner None bare)) = files bare.
Proof.
  apply (install_without_folder plain_runner None bare); reflexivity.
Defined.

(** X6. The folder picked in the dialog comes back as the Steam directory:
    for a folder that is not empty and has no trailing slash, a runner
    configured with the path [install] saved derives that very folder with
    [os.path.dirname], so manifests and configuration are looked up there. *)
Theorem chosen_folder_round_trip (self' : Runner) (w : World) (folder : string) :
  folder ≠ "" →
  OsPath.endswith_slash folder = false →
  runner_config self' !! "steam_path" = Some (OsPath.join folder "Steam.exe") →
  os_path_exists w (OsPath.join folder "Steam.exe") = true →
  OsPath.dirname (steam_path self' w) = folder.
Proof.
  intros Hne Hend Hcfg Hex.
  rewrite (LocationFacts.steam_path_configured self' w _ Hcfg Hex)
    by (by apply OsPathFacts.join_nonempty).
  by apply StringFacts.dirname_join_file.
Qed.

Lemma chosen_folder_round_trip_witness :
  OsPath.dirname
    (steam_path (mkRunner (Some "wine") {[ "steam_path" := "/opt/steam/Steam.exe" ]} ∅)
       (with_files {[ "/opt/steam/Steam.exe" ]} bare))
  = "/opt/steam".
Proof.
  apply (chosen_folder_round_trip
           (mkRunner (Some "wine") {[ "steam_path" := "/opt/steam/Steam.exe" ]} ∅)
           (with_files {[ "/opt/steam/Steam.exe" ]} bare) "/opt/steam");
    [discriminate | reflexivity | reflexivity | reflexivity].
Defined.

(** A folder given with a trailing slash does not come back as it was. *)
Example trailing_slash_folder :
  OsPath.dirname (OsPath.join "/opt/steam/" "Steam.exe") = "/opt/steam".
Proof. reflexivity. Qed.

End InstallMoreFacts.

(** ** Resolving, further *)

Module ResolverMoreFacts.
Import Sys Winesteam WinesteamRest Trace Views Observations MoreViews Fixtures MoreFixtures.
Local Arguments OsPath.join : simpl never.
Local Arguments OsPath.dirname : simpl never.

Lemma get_game_data_path_resolved (self : Runner) (appid : option string) (w : World) :
  get_game_data_path self appid w =
    (Py.Ok (resolved self w appid),
     with_trace (trace w ++ resolution self w appid) w).
Proof.
  rewrite ResolverFacts.get_game_data_path_eq. cbv zeta.
  unfold resolved, resolution.
  by destruct (Py.truthy (manifest_entry self w appid)).
Qed.

Lemma resolution_warnings (self : Runner) (w : World) (appid : option string) :
  warnings (resolution self w appid) =
    if Py.truthy (resolved self w appid) then []
    else [("Data path for SteamApp %s not found.", [appid])].
Proof.
  unfold resolution, resolved.
  destruct (Py.truthy (manifest_entry self w appid)) eqn:Hm; cbv iota;
    [by rewrite Hm |].
  by destruct (Py.truthy (config_entry self w appid)).
Qed.

(** X7. [get_game_data_path] logs its warning exactly when what it returns
    is nothing (None or the empty string), and then once; and it only
    reads: apart from the trace the world is as before. *)
Theorem get_game_data_path_warns_iff_nothing (self : Runner)
    (appid : option string) (w : World) :
  let r := get_game_data_path self appid w in
  ∃ v, value r = Py.Ok v ∧
       warnings (emitted w r) =
         (if Py.truthy v then []
          else [("Data path for SteamApp %s not found.", [appid])]) ∧
       final r = with_trace (trace w ++ emitted w r) w.
Proof.
  intros r. subst r. rewrite get_game_data_path_resolved.
  exists (resolved self w appid).
  erewrite TraceFacts.emitted_app; [| unfold final; cbn; reflexivity].
  split; [reflexivity |]. split; [apply resolution_warnings | reflexivity].
Qed.

(** What [game_path] returns. *)
Lemma game_path_value (self : Runner) (w : World) :
  value (game_path self w) =
    Py.Ok (if Py.truthy (resolved self w (game_config self !! "appid"))
           then resolved self w (game_config self !! "appid")
           else None).
Proof.
  unfold game_path, bind. rewrite get_game_data_path_resolved.
  destruct (Py.truthy (resolved self w (game_config self !! "appid"))) eqn:Hf.
  - rewrite get_game_data_path_resolved. reflexivity.
  - reflexivity.
Qed.

(** X8. The property [game_path] returns what [get_game_data_path] finds,
    with an empty string turned into None.  A path that is found is
    resolved twice, so the manifest is read twice for it; one that is not
    found is resolved once and warned about once. *)
Theorem game_path_resolves_twice (self : Runner) (w : World) :
  let appid := game_config self !! "appid" in
  let found := resolved self w appid in
  let r := game_path self w in
  value r = Py.Ok (if Py.truthy found then found else None) ∧
  manifest_reads (emitted w r) =
    (if Py.truthy found then [appid; appid] else [appid]) ∧
  length (warnings (emitted w r)) = (if Py.truthy found then 0 else 1)%nat.
Proof.
  cbv zeta. set (appid := game_config self !! "appid").
  unfold game_path. fold appid. unfold bind.
  rewrite get_game_data_path_resolved.
  pose proof (resolution_warnings self w appid) as Hw.
  destruct (Py.truthy (resolved self w appid)) eqn:Hf.
  - rewrite get_game_data_path_resolved.
    change (resolved self (with_trace _ w) appid) with (resolved self w appid).
    change (resolution self (with_trace _ w) appid) with (resolution self w appid).
    erewrite TraceFacts.emitted_app;
      [| unfold final; cbn; rewrite <- app_assoc; reflexivity].
    split; [reflexivity |].
    unfold manifest_reads, warnings in *. rewrite !omap_app, Hw.
    split; [| reflexivity].
    unfold resolution.
    destruct (Py.truthy (manifest_entry self w appid)); [reflexivity |].
    by destruct (Py.truthy (config_entry self w appid)).
  - unfold ret.
    erewrite TraceFacts.emitted_app; [| unfold final; cbn; reflexivity].
    split; [reflexivity |]. rewrite Hw. split; [| reflexivity].
    unfold resolution, manifest_reads.
    destruct (Py.truthy (manifest_entry self w appid)); [reflexivity |].
    by destruct (Py.truthy (config_entry self w appid)).
Qed.

(** X9. [get_steam_config] always reads the configuration file in the
    directory of Steam.exe, exactly once: its early return for an empty
    path of Steam.exe is never taken. *)
Theorem get_steam_config_always_reads (self : Runner) (w : World) :
  let dir := OsPath.dirname (steam_path self w) in
  let r := get_steam_config self w in
  value r = Py.Ok (steam_configs w !! dir) ∧
  emitted w r = [EReadConfig dir].
Proof.
  cbv zeta. unfold get_steam_config, read_config, bind, gets, emit, ret.
  rewrite (PyFacts.truthy_nonempty _ (RunnerFacts.steam_path_nonempty self w)).
  cbn -[steam_path]. split; [reflexivity | by apply TraceFacts.emitted_app].
Qed.

Lemma get_appid_list_value (self : Runner) (w : World) :
  value (get_appid_list self w) =
    Py.Ok
      match steam_configs w !! OsPath.dirname (steam_path self w) with
      | Some c =>
          if bool_decide (c = ∅) then Returned None
          else match c !! "apps" with
               | Some apps => Returned (Some (dom apps))
               | None => KeyError "apps"
               end
      | None => Returned None
      end.
Proof.
  unfold get_appid_list, get_steam_config, read_config, bind, gets, emit, ret, value.
  rewrite (PyFacts.truthy_nonempty _ (RunnerFacts.steam_path_nonempty self w)).
  cbn -[steam_path].
  change (steam_path self (with_trace _ w)) with (steam_path self w).
  destruct (steam_configs w !! OsPath.dirname (steam_path self w)) as [c|];
    [| reflexivity].
  case_bool_decide; [reflexivity |]. by destruct (c !! "apps").
Qed.

(** X10. [get_appid_list] raises KeyError exactly when Steam's
    configuration is there, is not empty and has no app registry; a missing
    or an empty configuration gives None instead. *)
Theorem get_appid_list_key_error (self : Runner) (w : World) :
  let config := steam_configs w !! OsPath.dirname (steam_path self w) in
  (value (get_appid_list self w) = Py.Ok (KeyError "apps") ↔
     ∃ c, config = Some c ∧ c ≠ ∅ ∧ c !! "apps" = None) ∧
  (value (get_appid_list self w) = Py.Ok (Returned None) ↔
     config = None ∨ config = Some ∅).
Proof.
  cbv zeta. rewrite get_appid_list_value.
  destruct (steam_configs w !! OsPath.dirname (steam_path self w)) as [c|].
  - case_bool_decide as Hc.
    + subst c. split; split.
      * intros [=].
      * intros (c & [= <-] & Hne & _). congruence.
      * auto.
      * auto.
    + destruct (c !! "apps") as [apps|] eqn:Ha; split; split.
      * intros [=].
      * intros (c' & [= <-] & _ & Hn). congruence.
      * intros [=].
      * intros [[=] | [= ->]]. congruence.
      * intros _. by exists c.
      * auto.
      * intros [=].
      * intros [[=] | [= ->]]. congruence.
  - split; split.
    + intros [=].
    + intros (c & [=] & _).
    + auto.
    + auto.
Qed.



(** An app whose registry entry is the empty string is listed, and its data
    path comes back as the empty string with the warning. *)
Example listed_with_empty_entry :
  value (get_appid_list plain_runner empty_entry)
    = Py.Ok (Returned (Some {[ "440" ]})) ∧
  value (get_game_data_path plain_runner (Some "440") empty_entry) = Py.Ok (Some "") ∧
  warnings (emitted empty_entry
              (get_game_data_path plain_runner (Some "440") empty_entry))
    = [("Data path for SteamApp %s not found.", [Some "440"])].
Proof.
  split; [rewrite get_appid_list_value; reflexivity |].
  split; reflexivity.
Qed.

Example get_appid_list_no_registry :
  value (get_appid_list plain_runner no_registry) = Py.Ok (KeyError "apps").
Proof. rewrite get_appid_list_value. reflexivity. Qed.

End ResolverMoreFacts.

(** ** The shutdown sequence, further *)

Module PrelaunchMoreFacts.
Import Sys Winesteam WinesteamRest Trace Views Observations MoreViews Fixtures MoreFixtures.

(** X12. Whatever the process table answers, [prelaunch] is bounded: at most
    three probes, at most 4 seconds of sleep, at most one graceful request
    and at most one kill; and a kill only comes after the graceful request
    and one wait of 2 seconds. *)
Theorem prelaunch_bounded (self : Runner) (w : World) :
  let tr := emitted w (prelaunch self w) in
  (1 ≤ probes_made tr ≤ 3)%nat ∧
  0 ≤ time_slept tr ≤ 4 ∧
  (kills tr ≤ shutdown_requests tr ≤ 1)%nat ∧
  (kills tr ≠ 0%nat →
     shutdown_requests (before_first_kill tr) = 1%nat ∧
     sleeps (before_first_kill tr) = [2]).
Proof.
  cbv zeta. destruct (PrelaunchFacts.prelaunch_run self w) as [_ He].
  rewrite He.
  destruct (probe w 0), (probe w 1), (probe w 2); cbn;
    repeat split; try lia; try done.
Qed.

(** X13. [prelaunch] always returns, and it returns [False] exactly when
    Steam was running at all three probes: before the graceful request,
    after it, and after the kill. *)
Theorem prelaunch_fails_iff (self : Runner) (w : World) :
  (∃ ok, value (prelaunch self w) = Py.Ok ok) ∧
  (value (prelaunch self w) = Py.Ok false ↔
     probe w 0 = true ∧ probe w 1 = true ∧ probe w 2 = true).
Proof.
  destruct (PrelaunchFacts.prelaunch_run self w) as [Hv _]. rewrite Hv.
  split; [eauto |].
  destruct (probe w 0), (probe w 1), (probe w 2); cbn; split;
    try (intros [=]); try (intros (? & ? & ?); discriminate); auto.
Qed.

(** X14. When Steam survives the graceful request and has exited by the
    probe that follows the kill, [prelaunch] returns [True] after two waits
    of 2 seconds and one kill, and logs no error. *)
Theorem prelaunch_killed_then_exits (self : Runner) (w : World) :
  probe w 0 = true →
  probe w 1 = true →
  probe w 2 = false →
  let r := prelaunch self w in
  value r = Py.Ok true ∧
  sleeps (emitted w r) = [2; 2] ∧
  kills (emitted w r) = 1%nat ∧
  omap (λ e, match e with ELog Error m _ => Some m | _ => None end)
       (emitted w r) = [].
Proof.
  intros H0 H1 H2 r. destruct (PrelaunchFacts.prelaunch_run self w) as [Hv He].
  fold r in Hv, He. rewrite Hv, He, H0, H1, H2. cbn. auto.
Qed.

Lemma prelaunch_killed_then_exits_witness :
  value (prelaunch plain_runner dies_when_killed) = Py.Ok true ∧
  sleeps (emitted dies_when_killed (prelaunch plain_runner dies_when_killed)) = [2; 2] ∧
  kills (emitted dies_when_killed (prelaunch plain_runner dies_when_killed)) = 1%nat.
Proof.
  destruct (prelaunch_killed_then_exits plain_runner dies_when_killed
              eq_refl eq_refl eq_refl) as (Hv & Hs & Hk & _).
  exact (conj Hv (conj Hs Hk)).
Defined.

(** The whole run of [prelaunch]: the trace grows and the process table is
    looked at once per probe. *)
Lemma prelaunch_full (self : Runner) (w : World) :
  ∃ (ok : bool) (evs : list Event),
    prelaunch self w =
      (Py.Ok ok, with_trace (trace w ++ evs) (with_tick (probes_made evs + tick w) w)).
Proof.
  unfold prelaunch, steam_is_running, steam_shutdown, steam_kill, time_sleep,
    logger, look, emit, bind, ret.
  cbn.
  destruct (steam_running (ptable w (tick w))); cbn;
    [| by exists true, [ESteamIsRunning]].
  destruct (steam_running (ptable w (S (tick w)))); cbn.
  2: { exists true,
         [ESteamIsRunning; ESteamShutdown;
          ELog Info "Waiting for Steam to shutdown..." []; ESleep 2;
          ESteamIsRunning].
       rewrite <- ?app_assoc. reflexivity. }
  destruct (steam_running (ptable w (S (S (tick w))))); cbn.
  - exists false,
      [ESteamIsRunning; ESteamShutdown;
       ELog Info "Waiting for Steam to shutdown..." []; ESleep 2;
       ESteamIsRunning;
       ELog Info "Steam does not shutdown, killing it..." []; ESteamKill;
       ESleep 2; ESteamIsRunning;
       ELog Error "Failed to shutdown Steam for Windows :(" []].
    rewrite <- ?app_assoc. reflexivity.
  - exists true,
      [ESteamIsRunning; ESteamShutdown;
       ELog Info "Waiting for Steam to shutdown..." []; ESleep 2;
       ESteamIsRunning;
       ELog Info "Steam does not shutdown, killing it..." []; ESteamKill;
       ESleep 2; ESteamIsRunning].
    rewrite <- ?app_assoc. reflexivity.
Qed.

(** X15. [prelaunch] only looks and acts through its calls: the disk, the
    stored configuration and the rest of the world stay as they were, and
    the process table has been looked at once per probe. *)
Theorem prelaunch_frame (self : Runner) (w : World) :
  let r := prelaunch self w in
  final r =
    with_trace (trace w ++ emitted w r)
      (with_tick (probes_made (emitted w r) + tick w) w).
Proof.
  cbv zeta. destruct (prelaunch_full self w) as (ok & evs & ->).
  erewrite TraceFacts.emitted_app; [| unfold final; cbn; reflexivity].
  reflexivity.
Qed.

End PrelaunchMoreFacts.

(** ** Shutting down and stopping, further *)

Module ShutdownMoreFacts.
Import Sys Winesteam WinesteamRest Trace Views Observations MoreViews Fixtures MoreFixtures.
Local Arguments OsPath.join : simpl never.
Local Arguments OsPath.join_opt : simpl never.

(** The run of [shutdown], case by case. *)
Lemma shutdown_run (w : World) :
  shutdown w =
    if negb (Py.truthy_int (pid_read w))
    then (Py.Ok (Some false),
          with_trace (trace w ++ [EGetPid "Steam.exe$"]) (with_tick (S (tick w)) w))
    else
      let looked := [EGetPid "Steam.exe$"; EGetCwd (pid_read w);
                     EGetCommandLine (pid_read w)] in
      match OsPath.join_opt (cwd_read w) (cmdline_read w) with
      | Py.Ok steam_exe =>
          (Py.Ok None,
           with_trace (trace w ++ looked
                       ++ [ELog Debug "Shutting winesteam: %s" [Some steam_exe];
                           EExecute ["wine"; steam_exe; "-shutdown"]])
             (with_tick (S (S (S (tick w)))) w))
      | Py.Raised e =>
          (Py.Raised e,
           with_trace (trace w ++ looked) (with_tick (S (S (S (tick w)))) w))
      end.
Proof.
  unfold pid_read, cwd_read, cmdline_read.
  unfold shutdown, system_get_pid, system_get_cwd, system_get_command_line,
    system_execute, logger, look, lift, bind, emit, ret.
  cbn -[Py.truthy_int].
  destruct (Py.truthy_int (pid_of (ptable w (tick w)) "Steam.exe$"));
    cbn -[Py.truthy_int]; [| reflexivity].
  destruct (OsPath.join_opt _ _); cbn -[Py.truthy_int];
    rewrite <- ?app_assoc; reflexivity.
Qed.

(** X16. [shutdown()] returns [False] exactly when [is_running()], looking
    at the same process table, says that Steam does not run. *)
Theorem shutdown_false_iff_not_running (w : World) :
  value (shutdown w) = Py.Ok (Some false) ↔ value (is_running w) = Py.Ok false.
Proof.
  rewrite shutdown_run.
  unfold is_running, system_get_pid, look, bind, emit, ret, value.
  cbn -[Py.truthy_int]. fold (pid_read w).
  destruct (Py.truthy_int (pid_read w)); cbn.
  - destruct (OsPath.join_opt _ _); cbn; split; intros [=].
  - split; reflexivity.
Qed.

(** X17. [shutdown()] raises whenever Steam is found and its command line
    then reads as nothing; it raises only when Steam is found and its
    working directory or its command line reads as nothing; and when it
    raises, nothing has been run. *)
Theorem shutdown_raises_when (w : World) :
  (Py.truthy_int (pid_read w) = true → cmdline_read w = None →
     Py.is_ok (value (shutdown w)) = false) ∧
  (Py.is_ok (value (shutdown w)) = false →
     Py.truthy_int (pid_read w) = true ∧
     (cwd_read w = None ∨ cmdline_read w = None)) ∧
  (Py.is_ok (value (shutdown w)) = false → executed (emitted w (shutdown w)) = []).
Proof.
  rewrite shutdown_run.
  destruct (Py.truthy_int (pid_read w)); cbn [negb].
  2: { split; [intros [=] | split; intros [=]]. }
  unfold OsPath.join_opt.
  destruct (cmdline_read w) as [c|]; cbn.
  2: { split; [auto |]. split; [auto |]. intros _.
       erewrite TraceFacts.emitted_app; [| unfold final; cbn; reflexivity].
       reflexivity. }
  destruct (OsPath.startswith_slash c) eqn:Hs; cbn.
  { split; [intros _ [=] | split; intros [=]]. }
  destruct (cwd_read w) as [d|]; cbn.
  { split; [intros _ [=] | split; intros [=]]. }
  split; [intros _ [=] |]. split; [auto |]. intros _.
  erewrite TraceFacts.emitted_app; [| unfold final; cbn; reflexivity].
  reflexivity.
Qed.

(** X18. [shutdown()] runs at most one command, and only when it returns
    None: wine with the join of the working directory and the command line
    of the process it found, and -shutdown. *)
Theorem shutdown_requests_once (w : World) :
  let r := shutdown w in
  (length (executed (emitted w r)) ≤ 1)%nat ∧
  (value r = Py.Ok None ↔ executed (emitted w r) ≠ []) ∧
  (∀ argv, argv ∈ executed (emitted w r) →
     ∃ steam_exe,
       OsPath.join_opt (cwd_read w) (cmdline_read w) = Py.Ok steam_exe ∧
       argv = ["wine"; steam_exe; "-shutdown"]).
Proof.
  cbv zeta. rewrite shutdown_run.
  destruct (Py.truthy_int (pid_read w)); cbn [negb].
  2: { erewrite TraceFacts.emitted_app; [| unfold final; cbn; reflexivity].
       cbn. split; [lia |]. split; [split; [intros [=] | done] |].
       intros argv Hin. by apply elem_of_nil in Hin. }
  cbv zeta.
  destruct (OsPath.join_opt (cwd_read w) (cmdline_read w)) as [exe|e].
  - erewrite TraceFacts.emitted_app; [| unfold final; cbn; reflexivity].
    cbn. split; [lia |]. split; [split; [done | reflexivity] |].
    intros argv Hin. apply list_elem_of_singleton in Hin as ->. by exists exe.
  - erewrite TraceFacts.emitted_app; [| unfold final; cbn; reflexivity].
    cbn. split; [lia |]. split; [split; [intros [=] | done] |].
    intros argv Hin. by apply elem_of_nil in Hin.
Qed.

Section Stop.
Variable base_stop : M unit.

(** X19. [stop()] does not look at what [shutdown()] returned: when no
    Steam is found it still sleeps 2 seconds before it hands over to the
    stop of the base class. *)
Theorem stop_waits_without_steam (self : Runner) (w : World) :
  Py.truthy_int (pid_read w) = false →
  stop base_stop self w =
    base_stop (with_trace (trace w ++ [EGetPid "Steam.exe$"; ESleep 2])
                 (with_tick (S (tick w)) w)).
Proof.
  intros Hp. unfold stop, bind. rewrite shutdown_run, Hp. cbn [negb].
  unfold time_sleep, emit. cbn. unfold with_trace, with_tick. cbn.
  by rewrite <- app_assoc.
Qed.

(** X20. When [shutdown()] raises, [stop()] raises the same exception at
    once: it does not sleep, and the stop of the base class is not run. *)
Theorem stop_raises_with_shutdown (self : Runner) (w : World) (e : Py.exn) :
  value (shutdown w) = Py.Raised e →
  stop base_stop self w = shutdown_raised e w
  ∧ sleeps (emitted w (stop base_stop self w)) = [].
Proof.
  intros Hr. unfold stop, bind, shutdown_raised.
  rewrite shutdown_run in Hr |- *.
  destruct (Py.truthy_int (pid_read w)); cbn [negb] in *; [| discriminate].
  cbv zeta in *.
  destruct (OsPath.join_opt (cwd_read w) (cmdline_read w)); [discriminate |].
  injection Hr as ->. split; [reflexivity |].
  erewrite TraceFacts.emitted_app; [| unfold final; cbn; reflexivity].
  reflexivity.
Qed.

End Stop.

Lemma stop_waits_without_steam_witness :
  stop (ret tt) plain_runner bare =
    (Py.Ok tt, with_trace [EGetPid "Steam.exe$"; ESleep 2] (with_tick 1 bare)).
Proof.
  apply (stop_waits_without_steam (ret tt) plain_runner bare). reflexivity.
Defined.

Lemma stop_raises_with_shutdown_witness :
  Py.is_ok (value (stop (ret tt) plain_runner exits_after_first_look)) = false ∧
  sleeps (emitted exits_after_first_look
            (stop (ret tt) plain_runner exits_after_first_look)) = [].
Proof.
  destruct (stop_raises_with_shutdown (ret tt) plain_runner exits_after_first_look
              (Py.AttributeError "'NoneType' object has no attribute 'startswith'")
              eq_refl) as [Hs Hz].
  split; [by rewrite Hs | exact Hz].
Defined.

End ShutdownMoreFacts.

(** ** Launching, further *)

Module LaunchMoreFacts.
Import Sys Winesteam WinesteamRest Trace Views Observations MoreViews Fixtures MoreFixtures.
Local Arguments OsPath.join : simpl never.

(** The whole run of [play]. *)
Lemma play_full (self : Runner) (w : World) :
  play self w =
    if negb (check_depends self w)
    then (Py.Ok (PlayError "RUNNER_NOT_INSTALLED" (depends self)), w)
    else if negb (is_installed self w)
    then (Py.Ok (PlayError "RUNNER_NOT_INSTALLED" (Some class_name)), w)
    else (Py.Ok (PlayCommand (launch_command self w)),
          with_trace (trace w ++ [ELog Debug "Checking Steam installation" [];
                                  EPrepareLaunch]) w).
Proof.
  unfold play, launch_command. cbv zeta.
  destruct (Py.truthy (Some (Py.or_empty (game_config self !! "prefix"))));
    destruct (Py.truthy (Some (Py.or_empty (game_config self !! "appid"))));
    destruct (Py.truthy (Some (Py.or_empty (game_config self !! "args"))));
    unfold bind, gets, ret, logger, prepare_launch, emit; cbn;
    destruct (check_depends self w); cbn; try reflexivity;
    destruct (is_installed self w); cbn; try reflexivity;
    rewrite ?app_nil_r; unfold with_trace; cbn; rewrite <- ?app_assoc;
    reflexivity.
Qed.

(** X21. An error of [play()] changes nothing: no log, no launch
    preparation, the world as it was.  It names the runner depended on when
    the dependency check fails, and winesteam itself only when the
    dependency is there and Steam.exe is not. *)
Theorem play_error_untouched (self : Runner) (w : World) :
  (check_depends self w = false →
     play self w = (Py.Ok (PlayError "RUNNER_NOT_INSTALLED" (depends self)), w)) ∧
  (check_depends self w = true → is_installed self w = false →
     play self w = (Py.Ok (PlayError "RUNNER_NOT_INSTALLED" (Some "winesteam")), w)).
Proof.
  rewrite play_full. split.
  - by intros ->.
  - by intros -> ->.
Qed.

Lemma play_error_untouched_witness :
  play tf2_runner (without_wine installed)
  = (Py.Ok (PlayError "RUNNER_NOT_INSTALLED" (Some "wine")), without_wine installed) ∧
  play tf2_runner bare
  = (Py.Ok (PlayError "RUNNER_NOT_INSTALLED" (Some "winesteam")), bare).
Proof.
  split.
  - apply (proj1 (play_error_untouched tf2_runner (without_wine installed))).
    reflexivity.
  - apply (proj2 (play_error_untouched tf2_runner bare)); reflexivity.
Defined.

(** X22. A [play()] that returns a command has prepared the launch exactly
    once, after one debug message, and has done nothing else to the
    world. *)
Theorem play_prepares_once (self : Runner) (w : World) :
  is_installed self w = true →
  let r := play self w in
  emitted w r = [ELog Debug "Checking Steam installation" []; EPrepareLaunch] ∧
  launch_preparations (emitted w r) = 1%nat ∧
  final r = with_trace (trace w ++ emitted w r) w.
Proof.
  intros Hi. cbv zeta. rewrite play_full, Hi.
  rewrite RunnerFacts.is_installed_eq in Hi.
  apply andb_true_iff in Hi as [-> _]. cbn [negb].
  erewrite TraceFacts.emitted_app; [| unfold final; cbn; reflexivity].
  repeat split.
Qed.

Lemma play_prepares_once_witness :
  launch_preparations (emitted installed (play tf2_runner installed)) = 1%nat.
Proof.
  apply (play_prepares_once tf2_runner installed). reflexivity.
Defined.

Lemma last_app_singleton {A} (l : list A) (x : A) : last (l ++ [x]) = Some x.
Proof. by rewrite last_snoc. Qed.

(** X23. The command of [play()] always starts with WINEDEBUG=fixme-all.  A
    prefix, when set, comes second as WINEPREFIX= with the prefix between
    double quotes and a trailing space; otherwise the wine executable
    between double quotes comes second.  The free-form arguments, when set,
    are the last element, passed on as one string; with neither appid nor
    arguments the command ends with the flag -no-dwrite. *)
Theorem play_command_shape (self : Runner) (w : World) :
  is_installed self w = true →
  let prefix := Py.or_empty (game_config self !! "prefix") in
  let appid := Py.or_empty (game_config self !! "appid") in
  let args := Py.or_empty (game_config self !! "args") in
  ∃ command,
    value (play self w) = Py.Ok (PlayCommand command) ∧
    head command = Some "WINEDEBUG=fixme-all" ∧
    (prefix ≠ "" →
       command !! 1%nat = Some ("WINEPREFIX=" +:+ dq +:+ prefix +:+ dq +:+ " ")) ∧
    (prefix = "" → command !! 1%nat = Some (dq +:+ get_executable self w +:+ dq)) ∧
    (args ≠ "" → last command = Some args) ∧
    (args = "" → appid ≠ "" → last command = Some appid) ∧
    (args = "" → appid = "" → last command = Some "-no-dwrite").
Proof.
  intros Hi. cbv zeta. rewrite play_full, Hi.
  rewrite RunnerFacts.is_installed_eq in Hi.
  apply andb_true_iff in Hi as [-> _]. cbn [negb].
  eexists. split; [reflexivity |]. unfold launch_command, launch_args. cbv zeta.
  split; [reflexivity |].
  split.
  { intros Hp. rewrite (PyFacts.truthy_nonempty _ Hp).
    unfold Py.quoted, Py.dquote.
    cbn [app lookup list_lookup]. by rewrite !StringFacts.app_assoc_str. }
  split; [intros ->; reflexivity |].
  split; [| split].
  - intros Ha. rewrite (PyFacts.truthy_nonempty _ Ha).
    rewrite !app_assoc. apply last_app_singleton.
  - intros -> Hid. rewrite (PyFacts.truthy_nonempty _ Hid). cbn [Py.truthy].
    rewrite app_nil_r.
    change ["-applaunch"; Py.or_empty (game_config self !! "appid")]
      with (["-applaunch"] ++ [Py.or_empty (game_config self !! "appid")]).
    rewrite !app_assoc. apply last_app_singleton.
  - intros -> ->. cbn [Py.truthy]. rewrite !app_nil_r.
    change [Py.quoted (get_executable self w); Py.quoted (steam_path self w); "-no-dwrite"]
      with ([Py.quoted (get_executable self w); Py.quoted (steam_path self w)]
            ++ ["-no-dwrite"]).
    rewrite !app_assoc. apply last_app_singleton.
Qed.

Lemma play_command_shape_witness :
  ∃ command,
    value (play tf2_prefixed installed) = Py.Ok (PlayCommand command) ∧
    command !! 1%nat = Some ("WINEPREFIX=" +:+ dq +:+ "/home/u/tf2" +:+ dq +:+ " ") ∧
    last command = Some "-windowed -novid".
Proof.
  destruct (play_command_shape tf2_prefixed installed eq_refl)
    as (command & Hv & _ & Hp & _ & Ha & _).
  exists command. split; [exact Hv |]. split.
  - apply Hp. discriminate.
  - apply Ha. discriminate.
Defined.

Section Popen.
Variable popen_shell : string → M unit.

(** X24. [install_game] and [validate_game] hand one string to the shell:
    the wine executable between double quotes, the path of Steam.exe between
    double quotes, -no-dwrite and the URI steam://install/appid or
    steam://validate/appid, with single spaces between.  Only
    [install_game] logs it.  Neither uses the options of the game: no prefix
    is set and no arguments are added. *)
Theorem uri_commands (self : Runner) (appid : string) (w : World) :
  let command verb :=
    dq +:+ get_executable self w +:+ dq +:+ " "
    +:+ dq +:+ steam_path self w +:+ dq
    +:+ " -no-dwrite steam://" +:+ verb +:+ "/" +:+ appid in
  install_game popen_shell self appid w =
    popen_shell (command "install")
      (with_trace (trace w ++ [ELog Debug "Thread running: %s"
                                 [Some (command "install")]]) w) ∧
  validate_game popen_shell self appid w =
    popen_shell (command "validate") w ∧
  ∀ self', runner_config self' = runner_config self →
    install_game popen_shell self' appid w = install_game popen_shell self appid w ∧
    validate_game popen_shell self' appid w = validate_game popen_shell self appid w.
Proof.
  intros command.
  assert (Hcmd : ∀ verb,
    str_join " " (launch_args self w ++ [("steam://" +:+ verb +:+ "/") +:+ appid])
    = command verb).
  { intros verb. unfold command, launch_args, Py.quoted, Py.dquote.
    cbn [app str_join]. rewrite !StringFacts.app_assoc_str. reflexivity. }
  split; [| split].
  - unfold install_game, bind, gets, logger, emit. cbn -[launch_args str_join].
    change (launch_args self (with_trace _ w)) with (launch_args self w).
    rewrite <- (Hcmd "install"). reflexivity.
  - unfold validate_game, bind, gets. cbn -[launch_args str_join].
    rewrite <- (Hcmd "validate"). reflexivity.
  - intros self' Hcfg.
    assert (Hl : launch_args self' w = launch_args self w).
    { unfold launch_args, steam_path, get_executable, get_default_steam_dir.
      by rewrite Hcfg. }
    unfold install_game, validate_game, bind, gets, logger, emit.
    cbn -[launch_args str_join]. rewrite Hl. split; reflexivity.
Qed.

(** The string for app 440, character by character. *)
Example install_game_440 :
  install_game (λ cmd, emit (EExecute [cmd])) tf2_runner "440" installed
  = (Py.Ok tt,
     with_trace
       [ELog Debug "Thread running: %s"
          [Some (dq +:+ "/usr/bin/wine" +:+ dq +:+ " " +:+ dq
                 +:+ "/home/u/.wine/drive_c/Program Files/Steam/Steam.exe" +:+ dq
                 +:+ " -no-dwrite steam://install/440")];
        EExecute [dq +:+ "/usr/bin/wine" +:+ dq +:+ " " +:+ dq
                  +:+ "/home/u/.wine/drive_c/Program Files/Steam/Steam.exe" +:+ dq
                  +:+ " -no-dwrite steam://install/440"]]
       installed).
Proof. reflexivity. Qed.

End Popen.

Section Browse.
Variable install_dialog : M bool.

(** X25. On an installed runner [browse_dir] never opens the install
    dialog and never returns [False]: it returns what [game_path] finds,
    which is None or a path that is not empty. *)
Theorem browse_dir_installed (self : Runner) (w : World) :
  is_installed self w = true →
  let r := browse_dir install_dialog self w in
  final r = final (game_path self w) ∧
  (value r = Py.Ok (BrowsePath None) ∨
   ∃ p, p ≠ "" ∧ value r = Py.Ok (BrowsePath (Some p))).
Proof.
  intros Hi. cbv zeta.
  assert (Hrun : browse_dir install_dialog self w =
                 (match value (game_path self w) with
                  | Py.Ok p => Py.Ok (BrowsePath p)
                  | Py.Raised e => Py.Raised e
                  end, final (game_path self w))).
  { unfold browse_dir, bind, gets, ret, value, final. rewrite Hi. cbn [negb].
    by destruct (game_path self w) as [[p|e] w']. }
  rewrite Hrun. unfold final at 1, value at 1 2. cbn [fst snd].
  split; [reflexivity |].
  rewrite ResolverMoreFacts.game_path_value.
  destruct (Py.truthy (resolved self w (game_config self !! "appid")))
    eqn:Ht; [| by left].
  right. apply PyFacts.truthy_Some_nonempty in Ht as (p & Hp & Hne).
  exists p. split; [exact Hne | by rewrite Hp].
Qed.

End Browse.

Lemma browse_dir_installed_witness :
  value (browse_dir (ret false) (mkRunner (Some "wine") ∅ {[ "appid" := "570" ]}) two_apps)
  = Py.Ok (BrowsePath (Some "/games/dota")).
Proof.
  assert (Hi : is_installed (mkRunner (Some "wine") ∅ {[ "appid" := "570" ]})
                  two_apps = true) by (vm_compute; reflexivity).
  destruct (browse_dir_installed (ret false)
              (mkRunner (Some "wine") ∅ {[ "appid" := "570" ]}) two_apps Hi)
    as [_ [Hn | (p & _ & Hp)]].
  - vm_compute in Hn. discriminate.
  - rewrite Hp. vm_compute in Hp. injection Hp as <-. reflexivity.
Defined.

End LaunchMoreFacts.
